(** * HI-401k: contribution normalisation, retirement projection and the
      in-memory contribution store

    Shallow embedding of
    - [backend/index.js]: the mock database [contributionState] and the
      handlers of GET and POST /api/contribution;
    - [frontend/src/App.jsx]: [computeProjection] and the derived values
      [numericContribution], [livePercent], [perPaycheckDollar] and
      [yearlyContribution] of the [App] component; the state of [App], its
      other derived values ([liveProjection], [liveDelta], [hasChanges], the
      two notes) and its handlers ([fetchData], [handleSave],
      [handleResetRecommended], the inputs), run against the backend.
    [formatCurrency] and [formatPercent] format with the host's locale and
    are not modelled.

    Number model.  A JavaScript number is an exact rational or one of the
    three special values [Infinity], [-Infinity] and [NaN].  The special
    values follow IEEE 754 (a division by zero gives an infinity or [NaN],
    [NaN] compares false with everything, ...).  Finite values are exact:
    rounding to binary64, overflow and the sign of zero are not modelled.
    The theorems are those that rounding and overflow leave true: they
    compare, or they follow the operations of the code in their order, or
    they rest on the monotonicity of the operations.  [Binary64] runs the
    arithmetic of the page on the binary64 numbers themselves, where an
    exact identity fails. *)

From Stdlib Require Import QArith Qcanon Qabs Qround Lqa Bool String List.
From Stdlib Require PrimFloat.
Import ListNotations.
Open Scope string_scope.

(** ** JavaScript numbers *)

Module JS.

Inductive number : Type :=
| Fin (q : Qc)
| PInf
| NInf
| NaN.

Definition zero : number := Fin 0%Qc.
Definition one : number := Fin 1%Qc.
(** A whole number, as a rational and as a JavaScript number. *)
Definition QcZ (z : Z) : Qc := Q2Qc (inject_Z z).
Definition ofZ (z : Z) : number := Fin (QcZ z).

(** Sign of a rational, as the comparison with zero. *)
Definition sgn (q : Qc) : comparison := (q ?= 0)%Qc.

Definition neg (a : number) : number :=
  match a with
  | Fin q => Fin (- q)%Qc
  | PInf => NInf
  | NInf => PInf
  | NaN => NaN
  end.

Definition add (a b : number) : number :=
  match a, b with
  | NaN, _ | _, NaN => NaN
  | Fin x, Fin y => Fin (x + y)%Qc
  | PInf, NInf | NInf, PInf => NaN
  | PInf, _ | _, PInf => PInf
  | NInf, _ | _, NInf => NInf
  end.

Definition sub (a b : number) : number := add a (neg b).

(** An infinity scaled by a finite factor. *)
Definition scale_inf (inf : number) (q : Qc) : number :=
  match sgn q with
  | Eq => NaN
  | Gt => inf
  | Lt => neg inf
  end.

Definition mul (a b : number) : number :=
  match a, b with
  | NaN, _ | _, NaN => NaN
  | Fin x, Fin y => Fin (x * y)%Qc
  | Fin x, (PInf | NInf) => scale_inf b x
  | (PInf | NInf), Fin y => scale_inf a y
  | PInf, PInf | NInf, NInf => PInf
  | PInf, NInf | NInf, PInf => NInf
  end.

Definition div (a b : number) : number :=
  match a, b with
  | NaN, _ | _, NaN => NaN
  | Fin x, Fin y =>
      match sgn y with
      | Eq => match sgn x with Eq => NaN | Gt => PInf | Lt => NInf end
      | _ => Fin (x / y)%Qc
      end
  | Fin _, (PInf | NInf) => zero
  | (PInf | NInf), Fin y =>
      match sgn y with Lt => neg a | _ => a end
  | (PInf | NInf), (PInf | NInf) => NaN
  end.

(** [a < b]; false as soon as one side is [NaN]. *)
Definition lt (a b : number) : bool :=
  match a, b with
  | NaN, _ | _, NaN => false
  | Fin x, Fin y => match (x ?= y)%Qc with Lt => true | _ => false end
  | NInf, (Fin _ | PInf) => true
  | Fin _, PInf => true
  | _, _ => false
  end.

(** [a === b] on numbers. *)
Definition strict_eq (a b : number) : bool :=
  match a, b with
  | Fin x, Fin y => match (x ?= y)%Qc with Eq => true | _ => false end
  | PInf, PInf | NInf, NInf => true
  | _, _ => false
  end.

Definition le (a b : number) : bool := lt a b || strict_eq a b.
Definition gt (a b : number) : bool := lt b a.
Definition ge (a b : number) : bool := le b a.

(** [Number.isFinite] on a number. *)
Definition isFinite (a : number) : bool :=
  match a with Fin _ => true | _ => false end.

(** ToBoolean on a number: [0] and [NaN] are falsy. *)
Definition truthy (a : number) : bool :=
  match a with
  | Fin q => match sgn q with Eq => false | _ => true end
  | NaN => false
  | _ => true
  end.

(** [a || b] on numbers. *)
Definition or_else (a b : number) : number := if truthy a then a else b.

(** The values a JSON body or a React state variable of this program can
    hold.  [VObj s] is an array or a plain object whose conversion to a
    primitive is the string [s]. *)
Inductive value : Type :=
| VUndefined
| VNull
| VBool (b : bool)
| VNum (n : number)
| VStr (s : string)
| VObj (s : string).

(** [Number(v)].  The conversion of a string is the host's
    [StringToNumber]; it is left abstract. *)
Section ToNumber.
Variable StringToNumber : string -> number.

Definition Number (v : value) : number :=
  match v with
  | VUndefined => NaN
  | VNull => zero
  | VBool true => one
  | VBool false => zero
  | VNum n => n
  | VStr s => StringToNumber s
  | VObj s => StringToNumber s
  end.
End ToNumber.

(** A [StringToNumber] for the runs in which no string is converted. *)
Definition nan_strings : string -> number := fun _ => NaN.

(** [v === undefined] *)
Definition is_undefined (v : value) : bool :=
  match v with VUndefined => true | _ => false end.

(** [v === "lit"] for a string literal. *)
Definition is_string (v : value) (lit : string) : bool :=
  match v with
  | VStr s => String.eqb s lit
  | _ => false
  end.

(** [Array.prototype.includes] on an array of string literals. *)
Definition includes (l : list string) (v : value) : bool :=
  match v with
  | VStr s => existsb (String.eqb s) l
  | _ => false
  end.

(** [Math.pow] where the exact result is rational: finite arguments and a
    whole exponent.  It serves to run the projection on a whole number of
    years; it is [NaN] on every other argument, where it says nothing about
    the host's function. *)
Definition pow_int (b e : number) : number :=
  match b, e with
  | Fin x, Fin y =>
      if (Qden y =? 1)%positive then
        match Qnum y with
        | Zneg n =>
            match sgn x with
            | Eq => PInf
            | _ => Fin (/ (x ^ Pos.to_nat n))%Qc
            end
        | n => Fin (x ^ Z.to_nat n)%Qc
        end
      else NaN
  | _, _ => NaN
  end.

Declare Scope js_scope.
Delimit Scope js_scope with js.
Bind Scope js_scope with number.
Infix "+" := add : js_scope.
Infix "-" := sub : js_scope.
Infix "*" := mul : js_scope.
Infix "/" := div : js_scope.
Infix "<?" := lt (at level 70) : js_scope.
Infix "<=?" := le (at level 70) : js_scope.
Infix ">?" := gt (at level 70) : js_scope.
Infix ">=?" := ge (at level 70) : js_scope.
Infix "===" := strict_eq (at level 70) : js_scope.

End JS.

(** ** backend/index.js *)

Module Backend.
Import JS.
Local Open Scope js_scope.

(** [ASSUMPTIONS] *)
Definition ANNUAL_RETURN : number := Fin (Q2Qc (5 # 100)).
Definition RETIREMENT_AGE : number := ofZ 65.

(** The mock database. *)
Record ContributionState : Type := {
  userId : string;
  age : number;
  salary : number;
  payPeriodsPerYear : number;
  ytdContribution : number;
  contributionType : string;
  contributionValue : number;
  currentBalance : number
}.

Definition contributionState : ContributionState := {|
  userId := "mock-user-123";
  age := ofZ 30;
  salary := ofZ 120000;
  payPeriodsPerYear := ofZ 24;
  ytdContribution := ofZ 8500;
  contributionType := "percent";
  contributionValue := ofZ 10;
  currentBalance := ofZ 15000
|}.

(** *** GET /api/contribution *)

(** "Convert current selection to an equivalent % of salary" *)
Definition currentPercent (st : ContributionState) : number :=
  if String.eqb (contributionType st) "percent" then
    contributionValue st
  else if (salary st >? zero) && (payPeriodsPerYear st >? zero) then
    let yearlyDollar := contributionValue st * payPeriodsPerYear st in
    (yearlyDollar / salary st) * ofZ 100
  else
    zero.

Record Assumptions : Type := {
  retirementAge : number;
  annualReturnPercent : number
}.

Record GetResponse : Type := {
  res_userId : string;
  res_age : number;
  res_salary : number;
  res_payPeriodsPerYear : number;
  res_ytdContribution : number;
  res_currentBalance : number;
  res_contributionType : string;
  res_contributionValue : number;
  res_currentPercent : number;
  res_assumptions : Assumptions
}.

Definition get_contribution (st : ContributionState) : GetResponse := {|
  res_userId := userId st;
  res_age := age st;
  res_salary := salary st;
  res_payPeriodsPerYear := payPeriodsPerYear st;
  res_ytdContribution := ytdContribution st;
  res_currentBalance := currentBalance st;
  res_contributionType := contributionType st;
  res_contributionValue := contributionValue st;
  res_currentPercent := currentPercent st;
  res_assumptions := {|
    retirementAge := RETIREMENT_AGE;
    annualReturnPercent := ANNUAL_RETURN * ofZ 100
  |}
|}.

(** *** POST /api/contribution *)

(** [req.body], destructured; a key that is not sent is [VUndefined]. *)
Record Body : Type := {
  req_contributionType : value;
  req_contributionValue : value;
  req_age : value;
  req_salary : value;
  req_ytdContribution : value;
  req_currentBalance : value;
  req_payPeriodsPerYear : value
}.

Inductive Response : Type :=
| BadRequest (error : string)
| Saved (st : ContributionState).

Definition status (r : Response) : Z :=
  match r with
  | BadRequest _ => 400
  | Saved _ => 200
  end.

(** Field updates of [nextState]. *)
Definition set_selection (ty : string) (v : number) (st : ContributionState) :=
  {| userId := userId st; age := age st; salary := salary st;
     payPeriodsPerYear := payPeriodsPerYear st;
     ytdContribution := ytdContribution st;
     contributionType := ty; contributionValue := v;
     currentBalance := currentBalance st |}.

Definition set_age (n : number) (st : ContributionState) :=
  {| userId := userId st; age := n; salary := salary st;
     payPeriodsPerYear := payPeriodsPerYear st;
     ytdContribution := ytdContribution st;
     contributionType := contributionType st;
     contributionValue := contributionValue st;
     currentBalance := currentBalance st |}.

Definition set_salary (n : number) (st : ContributionState) :=
  {| userId := userId st; age := age st; salary := n;
     payPeriodsPerYear := payPeriodsPerYear st;
     ytdContribution := ytdContribution st;
     contributionType := contributionType st;
     contributionValue := contributionValue st;
     currentBalance := currentBalance st |}.

Definition set_ytdContribution (n : number) (st : ContributionState) :=
  {| userId := userId st; age := age st; salary := salary st;
     payPeriodsPerYear := payPeriodsPerYear st;
     ytdContribution := n;
     contributionType := contributionType st;
     contributionValue := contributionValue st;
     currentBalance := currentBalance st |}.

Definition set_currentBalance (n : number) (st : ContributionState) :=
  {| userId := userId st; age := age st; salary := salary st;
     payPeriodsPerYear := payPeriodsPerYear st;
     ytdContribution := ytdContribution st;
     contributionType := contributionType st;
     contributionValue := contributionValue st;
     currentBalance := n |}.

Definition set_payPeriodsPerYear (n : number) (st : ContributionState) :=
  {| userId := userId st; age := age st; salary := salary st;
     payPeriodsPerYear := n;
     ytdContribution := ytdContribution st;
     contributionType := contributionType st;
     contributionValue := contributionValue st;
     currentBalance := currentBalance st |}.

Section Post.
Variable StringToNumber : string -> number.

(** One optional snapshot field:
    [if (f !== undefined) { const n = Number(f); if (valid(n)) next.f = n }] *)
Definition update_snapshot
    (field : value) (valid : number -> bool)
    (set : number -> ContributionState -> ContributionState)
    (nextState : ContributionState) : ContributionState :=
  if is_undefined field then nextState
  else
    let n := Number StringToNumber field in
    if valid n then set n nextState else nextState.

Definition valid_age (ageNum : number) : bool :=
  isFinite ageNum && (ageNum >? zero) && (ageNum <? ofZ 100).
Definition valid_salary (salaryNum : number) : bool :=
  isFinite salaryNum && (salaryNum >=? zero).
Definition valid_ytdContribution (ytdNum : number) : bool :=
  isFinite ytdNum && (ytdNum >=? zero).
Definition valid_currentBalance (balNum : number) : bool :=
  isFinite balNum && (balNum >=? zero).
Definition valid_payPeriodsPerYear (ppNum : number) : bool :=
  isFinite ppNum && (ppNum >? zero) && (ppNum <=? ofZ 52).

(** The handler: the response and the store after the request. *)
Definition post_contribution (body : Body) (st : ContributionState)
  : Response * ContributionState :=
  if negb (includes ["percent"; "dollar"] (req_contributionType body)) then
    (BadRequest "Invalid contributionType", st)
  else
    let valueNum := Number StringToNumber (req_contributionValue body) in
    if negb (isFinite valueNum) || (valueNum <? zero) then
      (BadRequest "Invalid contributionValue", st)
    else if is_string (req_contributionType body) "percent"
            && (valueNum >? ofZ 50) then
      (BadRequest "Percent too high", st)
    else if is_string (req_contributionType body) "dollar"
            && (valueNum >? ofZ 5000) then
      (BadRequest "Dollar amount too high", st)
    else
      let ty := match req_contributionType body with
                | VStr s => s
                | _ => ""
                end in
      let nextState := set_selection ty valueNum st in
      let nextState :=
        update_snapshot (req_age body) valid_age set_age nextState in
      let nextState :=
        update_snapshot (req_salary body) valid_salary set_salary nextState in
      let nextState :=
        update_snapshot (req_ytdContribution body) valid_ytdContribution
          set_ytdContribution nextState in
      let nextState :=
        update_snapshot (req_currentBalance body) valid_currentBalance
          set_currentBalance nextState in
      let nextState :=
        update_snapshot (req_payPeriodsPerYear body) valid_payPeriodsPerYear
          set_payPeriodsPerYear nextState in
      (Saved nextState, nextState).
(** An optional snapshot field of a request is skipped when it is not
    sent or when its number is not valid. *)
Definition skipped (field : value) (valid : number -> bool) : Prop :=
  is_undefined field = true \/ valid (Number StringToNumber field) = false.
End Post.

(** The well-formedness of the store: the selection is of a known type and
    within its cap, the snapshot fields are finite and within their ranges. *)
Definition well_formed (st : ContributionState) : bool :=
  (String.eqb (contributionType st) "percent"
   || String.eqb (contributionType st) "dollar")
  && isFinite (contributionValue st)
  && (contributionValue st >=? zero)
  && (if String.eqb (contributionType st) "percent"
      then contributionValue st <=? ofZ 50 else true)
  && (if String.eqb (contributionType st) "dollar"
      then contributionValue st <=? ofZ 5000 else true)
  && isFinite (salary st) && (salary st >=? zero)
  && isFinite (ytdContribution st) && (ytdContribution st >=? zero)
  && isFinite (currentBalance st) && (currentBalance st >=? zero)
  && isFinite (age st) && (age st >? zero) && (age st <? ofZ 100)
  && isFinite (payPeriodsPerYear st)
  && (payPeriodsPerYear st >? zero) && (payPeriodsPerYear st <=? ofZ 52).

(** Two requests: a selection of an unknown type, and a dollar selection
    sent with a new age, a text for the balance and zero pay periods. *)
Definition bonus_request : Body := {|
  req_contributionType := VStr "bonus";
  req_contributionValue := VNum (ofZ 10);
  req_age := VNum (ofZ 31);
  req_salary := VUndefined;
  req_ytdContribution := VUndefined;
  req_currentBalance := VUndefined;
  req_payPeriodsPerYear := VUndefined
|}.

Definition dollar_request : Body := {|
  req_contributionType := VStr "dollar";
  req_contributionValue := VNum (ofZ 250);
  req_age := VNum (ofZ 31);
  req_salary := VUndefined;
  req_ytdContribution := VUndefined;
  req_currentBalance := VStr "a lot";
  req_payPeriodsPerYear := VNum (ofZ 0)
|}.

End Backend.

(** ** frontend/src/App.jsx *)

Module Frontend.
Import JS.
Local Open Scope js_scope.

(** A React state variable that is [null] until the data is loaded;
    [None] stands for [null] and [undefined], which [== null] does not tell
    apart. *)
Definition nullable : Type := option number.

(** The number a nullable stands for in arithmetic ([null] converts to 0). *)
Definition num (x : nullable) : number :=
  match x with
  | Some n => n
  | None => zero
  end.

(** [!x] *)
Definition not_ (x : nullable) : bool :=
  match x with
  | Some n => negb (truthy n)
  | None => true
  end.

(** *** computeProjection *)

Section Projection.
(** [Math.pow], the host's. *)
Variable Math_pow : number -> number -> number.

Definition futureBalance (currentBalance r years : number) : number :=
  currentBalance * Math_pow (one + r) years.

Definition annuityFactor (r years : number) : number :=
  if r === zero then years else (Math_pow (one + r) years - one) / r.

(** The result is [None] for [null]. *)
Definition computeProjection
    (age retirementAge : nullable) (annualReturn : number)
    (currentBalance salary : nullable) (contributionPercent : number)
  : option number :=
  match age, retirementAge, salary, currentBalance with
  | Some age, Some retirementAge, Some salary, Some currentBalance =>
      let years := retirementAge - age in
      let r := annualReturn in
      let yearlyContribution := salary * (contributionPercent / ofZ 100) in
      if years <=? zero then
        Some (currentBalance + yearlyContribution)
      else
        let futureContributions := yearlyContribution * annuityFactor r years in
        Some (futureBalance currentBalance r years + futureContributions)
  | _, _, _, _ => None
  end.
End Projection.

(** *** Derived values of [App] *)

Definition isPercent (contributionType : string) : bool :=
  String.eqb contributionType "percent".

Section Derived.
Variable StringToNumber : string -> number.

(** [Number(contributionValue) || 0] *)
Definition numericContribution (contributionValue : value) : number :=
  or_else (Number StringToNumber contributionValue) zero.
End Derived.

Definition livePercent
    (isPercent : bool) (numericContribution : number)
    (salary payPeriods : nullable) : number :=
  if isPercent then numericContribution
  else if not_ salary || not_ payPeriods then zero
  else
    let yearlyDollar := numericContribution * num payPeriods in
    (yearlyDollar / num salary) * ofZ 100.

Definition perPaycheckDollar
    (isPercent : bool) (numericContribution : number)
    (salary payPeriods : nullable) : number :=
  if not_ salary || not_ payPeriods then zero
  else if isPercent then
    (num salary * (numericContribution / ofZ 100)) / num payPeriods
  else numericContribution.

Definition yearlyContribution
    (perPaycheckDollar : number) (payPeriods : nullable) : number :=
  if not_ payPeriods then zero
  else perPaycheckDollar * num payPeriods.

(** The three derived values of one render, from the working selection
    and the snapshot. *)
Record NormalizedContribution : Type := {
  equivalentPercent : number;
  perPaycheckAmount : number;
  yearlyAmount : number
}.

Section Normalizer.
Variable StringToNumber : string -> number.

Definition normalizeContribution
    (contributionType : string) (contributionValue : value)
    (salary payPeriods : nullable) : NormalizedContribution :=
  let isPercent := isPercent contributionType in
  let numericContribution :=
    numericContribution StringToNumber contributionValue in
  let perPaycheckDollar :=
    perPaycheckDollar isPercent numericContribution salary payPeriods in
  {| equivalentPercent :=
       livePercent isPercent numericContribution salary payPeriods;
     perPaycheckAmount := perPaycheckDollar;
     yearlyAmount := yearlyContribution perPaycheckDollar payPeriods |}.
End Normalizer.

End Frontend.

(** ** Sequences of requests to the backend *)

Module Server.
Import JS Backend.

Section Run.
Variable StringToNumber : string -> number.


(** The store that an accepted request leaves. *)
Definition stored (body : Body) (ty : string) (st : ContributionState)
  : ContributionState :=
  update_snapshot StringToNumber (req_payPeriodsPerYear body)
    valid_payPeriodsPerYear set_payPeriodsPerYear
    (update_snapshot StringToNumber (req_currentBalance body)
       valid_currentBalance set_currentBalance
       (update_snapshot StringToNumber (req_ytdContribution body)
          valid_ytdContribution set_ytdContribution
          (update_snapshot StringToNumber (req_salary body)
             valid_salary set_salary
             (update_snapshot StringToNumber (req_age body)
                valid_age set_age
                (set_selection ty
                   (Number StringToNumber (req_contributionValue body))
                   st))))).

(** The four checks of the handler, on the type and the number sent. *)
Definition acceptable (ty : string) (v : number) : bool :=
  (String.eqb ty "percent" || String.eqb ty "dollar")
  && isFinite v && negb (JS.lt v zero)
  && negb (String.eqb ty "percent" && JS.gt v (ofZ 50))
  && negb (String.eqb ty "dollar" && JS.gt v (ofZ 5000)).

(** The number an optional snapshot field leaves in the store: its own
    when it is sent and valid, the stored one otherwise. *)
Definition applied (field : value) (valid : number -> bool) (old : number)
  : number :=
  if is_undefined field then old
  else if valid (Number StringToNumber field)
       then Number StringToNumber field else old.
End Run.

End Server.

(** ** frontend/src/App.jsx: the state of [App] and its handlers *)

Module App.
Import JS Frontend.
Local Open Scope js_scope.

(** *** The JSON between the page and the server *)

(** [JSON.stringify] writes a finite number as it is and [NaN] and the
    infinities as [null]. *)
Definition json_number (n : number) : nullable :=
  if isFinite n then Some n else None.

(** A number or [null] of the page, as the server reads it in a body. *)
Definition json_value (x : nullable) : value :=
  match x with
  | Some n => if isFinite n then VNum n else VNull
  | None => VNull
  end.

(** The reply of GET /api/contribution, as [res.json()] gives it to the
    page (the page does not read [userId]). *)
Record DataAssumptions : Type := {
  data_retirementAge : nullable;
  data_annualReturnPercent : nullable
}.

Record Data : Type := {
  data_age : nullable;
  data_salary : nullable;
  data_payPeriodsPerYear : nullable;
  data_ytdContribution : nullable;
  data_currentBalance : nullable;
  data_contributionType : string;
  data_contributionValue : nullable;
  data_currentPercent : nullable;
  data_assumptions : option DataAssumptions
}.

Definition parse_response (r : Backend.GetResponse) : Data := {|
  data_age := json_number (Backend.res_age r);
  data_salary := json_number (Backend.res_salary r);
  data_payPeriodsPerYear := json_number (Backend.res_payPeriodsPerYear r);
  data_ytdContribution := json_number (Backend.res_ytdContribution r);
  data_currentBalance := json_number (Backend.res_currentBalance r);
  data_contributionType := Backend.res_contributionType r;
  data_contributionValue := json_number (Backend.res_contributionValue r);
  data_currentPercent := json_number (Backend.res_currentPercent r);
  data_assumptions := Some {|
    data_retirementAge :=
      json_number (Backend.retirementAge (Backend.res_assumptions r));
    data_annualReturnPercent :=
      json_number (Backend.annualReturnPercent (Backend.res_assumptions r))
  |}
|}.

(** What a [fetch] and the reading of its reply come to. *)
Inductive GetReply : Type :=
| GetThrew (message : string)
| GetNotOk
| GetOk (data : Data).

(** For the POST, the page reads [err.error] of a reply that is not ok;
    [None] when the reply has no such key or is not JSON. *)
Inductive PostReply : Type :=
| PostThrew (message : string)
| PostNotOk (error : option string)
| PostOk.

(** *** The state *)

Record Assumptions : Type := {
  retirementAge : number;
  annualReturn : number
}.

Record State : Type := {
  loading : bool;
  saving : bool;
  error : string;
  successMessage : string;
  age : nullable;
  salary : nullable;
  payPeriods : nullable;
  ytd : nullable;
  currentBalance : nullable;
  assumptions : option Assumptions;
  savedType : string;
  savedValue : nullable;
  savedPercent : nullable;
  contributionType : string;
  contributionValue : value
}.

(** The [useState] defaults. *)
Definition initial : State := {|
  loading := true;
  saving := false;
  error := "";
  successMessage := "";
  age := None;
  salary := None;
  payPeriods := None;
  ytd := None;
  currentBalance := None;
  assumptions := None;
  savedType := "percent";
  savedValue := Some zero;
  savedPercent := Some zero;
  contributionType := "percent";
  contributionValue := VNum zero
|}.

(** [x ?? d] *)
Definition nullish (x : nullable) (d : number) : number :=
  match x with
  | Some n => n
  | None => d
  end.

(** [s || d] on strings. *)
Definition or_string (s d : string) : string :=
  if String.eqb s "" then d else s.

(** A number or [null] stored in a state variable that holds any value. *)
Definition value_of (x : nullable) : value :=
  match x with
  | Some n => VNum n
  | None => VNull
  end.

(** *** fetchData *)

Definition fetchData (reply : GetReply) (s : State) : State :=
  match reply with
  | GetOk data =>
      {| loading := false;
         saving := saving s;
         error := "";
         successMessage := successMessage s;
         age := data_age data;
         salary := data_salary data;
         payPeriods := data_payPeriodsPerYear data;
         ytd := data_ytdContribution data;
         currentBalance := data_currentBalance data;
         assumptions := Some {|
           retirementAge :=
             nullish (match data_assumptions data with
                      | Some a => data_retirementAge a
                      | None => None
                      end) (ofZ 65);
           annualReturn :=
             nullish (match data_assumptions data with
                      | Some a => data_annualReturnPercent a
                      | None => None
                      end) (ofZ 5) / ofZ 100
         |};
         savedType := data_contributionType data;
         savedValue := data_contributionValue data;
         savedPercent := data_currentPercent data;
         contributionType := data_contributionType data;
         contributionValue := value_of (data_contributionValue data) |}
  | GetNotOk | GetThrew _ =>
      {| loading := false;
         saving := saving s;
         error :=
           match reply with
           | GetThrew message =>
               or_string message "Failed to load contribution data."
           | _ => "Failed to load contribution data."
           end;
         successMessage := successMessage s;
         age := age s;
         salary := salary s;
         payPeriods := payPeriods s;
         ytd := ytd s;
         currentBalance := currentBalance s;
         assumptions := assumptions s;
         savedType := savedType s;
         savedValue := savedValue s;
         savedPercent := savedPercent s;
         contributionType := contributionType s;
         contributionValue := contributionValue s |}
  end.

(** *** Derived values of a render *)

(** [Number(x.toFixed(2))]: the multiple of 0.01 nearest to [x], the one
    further from 0 of two; [x] itself from 10^21 on and for the special
    values. *)
Definition round2 (q : Qc) : Qc :=
  let n := Qfloor (Qabs q * inject_Z 100 + (1 # 2)) in
  let r := Q2Qc (inject_Z n / inject_Z 100) in
  match sgn q with
  | Lt => (- r)%Qc
  | _ => r
  end.

Definition toFixed2 (x : number) : number :=
  match x with
  | Fin q => if Qle_bool (inject_Z (10 ^ 21)) (Qabs q) then x else Fin (round2 q)
  | _ => x
  end.

Section Render.
Variable StringToNumber : string -> number.
Variable Math_pow : number -> number -> number.

Definition numeric (s : State) : number :=
  numericContribution StringToNumber (contributionValue s).

Definition live_percent (s : State) : number :=
  livePercent (isPercent (contributionType s)) (numeric s)
    (salary s) (payPeriods s).

Definition per_paycheck (s : State) : number :=
  perPaycheckDollar (isPercent (contributionType s)) (numeric s)
    (salary s) (payPeriods s).

Definition yearly (s : State) : number :=
  yearlyContribution (per_paycheck s) (payPeriods s).

Definition liveProjection (s : State) : option number :=
  match assumptions s with
  | None => None
  | Some a =>
      computeProjection Math_pow (age s) (Some (retirementAge a))
        (annualReturn a) (currentBalance s) (salary s) (live_percent s)
  end.

Definition liveProjectionPlusOne (s : State) : option number :=
  match assumptions s with
  | None => None
  | Some a =>
      computeProjection Math_pow (age s) (Some (retirementAge a))
        (annualReturn a) (currentBalance s) (salary s) (live_percent s + one)
  end.

Definition liveDelta (s : State) : option number :=
  match liveProjectionPlusOne s, liveProjection s with
  | Some plusOne, Some base => Some (plusOne - base)
  | _, _ => None
  end.

(** [None] when the render throws: [savedValue] is [null] and its
    [toFixed] is called. *)
Definition hasChanges (s : State) : option bool :=
  if negb (String.eqb (contributionType s) (savedType s)) then Some true
  else
    match savedValue s with
    | None => None
    | Some saved =>
        Some (negb (toFixed2 (numeric s) === toFixed2 saved))
    end.

Definition showHighSavingsWarning (s : State) : bool :=
  live_percent s >? ofZ 20.

Definition showLowSavingsNote (s : State) : bool :=
  (live_percent s >? zero) && (live_percent s <? ofZ 5).

(** *** handleResetRecommended *)

Definition handleResetRecommended (s : State) : State :=
  {| loading := loading s;
     saving := saving s;
     error := error s;
     successMessage := successMessage s;
     age := age s;
     salary := salary s;
     payPeriods := payPeriods s;
     ytd := ytd s;
     currentBalance := currentBalance s;
     assumptions := assumptions s;
     savedType := savedType s;
     savedValue := savedValue s;
     savedPercent := savedPercent s;
     contributionType := "percent";
     contributionValue := VNum (ofZ 10) |}.

(** *** handleSave *)

(** The body of the POST, as the server reads it. *)
Definition save_body (s : State) : Backend.Body := {|
  Backend.req_contributionType := VStr (contributionType s);
  Backend.req_contributionValue := json_value (Some (numeric s));
  Backend.req_age := json_value (age s);
  Backend.req_salary := json_value (salary s);
  Backend.req_ytdContribution := json_value (ytd s);
  Backend.req_currentBalance := json_value (currentBalance s);
  Backend.req_payPeriodsPerYear := json_value (payPeriods s)
|}.

(** A save that ends before or in the requests: the messages and [saving]
    are set, the rest is kept. *)
Definition finish (saving' : bool) (err success : string) (s : State)
  : State :=
  {| loading := loading s;
     saving := saving';
     error := err;
     successMessage := success;
     age := age s;
     salary := salary s;
     payPeriods := payPeriods s;
     ytd := ytd s;
     currentBalance := currentBalance s;
     assumptions := assumptions s;
     savedType := savedType s;
     savedValue := savedValue s;
     savedPercent := savedPercent s;
     contributionType := contributionType s;
     contributionValue := contributionValue s |}.

(** The refresh after a save that went through. *)
Definition refreshed (data : Data) (s : State) : State :=
  {| loading := loading s;
     saving := false;
     error := "";
     successMessage := "Your contribution rate has been saved.";
     age := age s;
     salary := salary s;
     payPeriods := payPeriods s;
     ytd := ytd s;
     currentBalance := currentBalance s;
     assumptions := assumptions s;
     savedType := data_contributionType data;
     savedValue := data_contributionValue data;
     savedPercent := data_currentPercent data;
     contributionType := data_contributionType data;
     contributionValue := value_of (data_contributionValue data) |}.

(** The handler against a server of any kind: [send_post] and [send_get]
    are the two requests, each with its reply and the server after it.
    There is no handler to run when the render has thrown. *)
Section Client.
Variable Server : Type.
Variable send_post : Backend.Body -> Server -> PostReply * Server.
Variable send_get : Server -> GetReply * Server.

Definition handleSave (s : State) (srv : Server) : State * Server :=
  match hasChanges s with
  | None => (s, srv)
  | Some false => (finish (saving s) "" "No changes to save." s, srv)
  | Some true =>
      let (res, srv) := send_post (save_body s) srv in
      match res with
      | PostThrew message =>
          (finish false (or_string message "Failed to save.") "" s, srv)
      | PostNotOk err =>
          let message :=
            or_string (match err with Some e => e | None => "" end)
              "Save failed" in
          (finish false (or_string message "Failed to save.") "" s, srv)
      | PostOk =>
          let (res2, srv) := send_get srv in
          match res2 with
          | GetThrew message =>
              (finish false (or_string message "Failed to save.") "" s, srv)
          | GetNotOk =>
              (finish false "Saved, but failed to refresh data." "" s, srv)
          | GetOk data => (refreshed data s, srv)
          end
      end
  end.
End Client.

(** The backend of this repository behind a transport that delivers. *)
Definition backend_post (body : Backend.Body) (st : Backend.ContributionState)
  : PostReply * Backend.ContributionState :=
  match Backend.post_contribution StringToNumber body st with
  | (Backend.BadRequest e, st') => (PostNotOk (Some e), st')
  | (Backend.Saved _, st') => (PostOk, st')
  end.

Definition backend_get (st : Backend.ContributionState)
  : GetReply * Backend.ContributionState :=
  (GetOk (parse_response (Backend.get_contribution st)), st).

(** What the network does to the requests of one save. *)
Inductive Net : Type :=
| Delivered
| PostLost (message : string)
| PostReplyLost (message : string)
| RefreshLost (message : string)
| RefreshNotOk.

Definition net_post
    (net : Net) (body : Backend.Body) (st : Backend.ContributionState)
  : PostReply * Backend.ContributionState :=
  match net with
  | PostLost message => (PostThrew message, st)
  | PostReplyLost message => (PostThrew message, snd (backend_post body st))
  | _ => backend_post body st
  end.

Definition net_get (net : Net) (st : Backend.ContributionState)
  : GetReply * Backend.ContributionState :=
  match net with
  | RefreshLost message => (GetThrew message, st)
  | RefreshNotOk => (GetNotOk, st)
  | _ => backend_get st
  end.

Definition save_over
    (net : Net) (s : State) (st : Backend.ContributionState)
  : State * Backend.ContributionState :=
  handleSave Backend.ContributionState (net_post net) (net_get net) s st.

Definition save (s : State) (st : Backend.ContributionState)
  : State * Backend.ContributionState :=
  save_over Delivered s st.

Definition load (st : Backend.ContributionState) (s : State) : State :=
  fetchData (fst (backend_get st)) s.

(** *** The inputs of the page *)

(** [setX(Number(e.target.value) || 0)] *)
Definition typed_number (text : string) : nullable :=
  Some (or_else (Number StringToNumber (VStr text)) zero).

Definition with_snapshot
    (age' salary' ytd' currentBalance' savedPercent' : nullable) (s : State)
  : State :=
  {| loading := loading s;
     saving := saving s;
     error := error s;
     successMessage := successMessage s;
     age := age';
     salary := salary';
     payPeriods := payPeriods s;
     ytd := ytd';
     currentBalance := currentBalance';
     assumptions := assumptions s;
     savedType := savedType s;
     savedValue := savedValue s;
     savedPercent := savedPercent';
     contributionType := contributionType s;
     contributionValue := contributionValue s |}.

Definition with_selection (ty : string) (v : value) (s : State) : State :=
  {| loading := loading s;
     saving := saving s;
     error := error s;
     successMessage := successMessage s;
     age := age s;
     salary := salary s;
     payPeriods := payPeriods s;
     ytd := ytd s;
     currentBalance := currentBalance s;
     assumptions := assumptions s;
     savedType := savedType s;
     savedValue := savedValue s;
     savedPercent := savedPercent s;
     contributionType := ty;
     contributionValue := v |}.

(** What happens to the page: the data arrives or fails to, the user types
    in an input, presses one of the two type buttons, moves the slider,
    resets or saves.  The page shows its inputs only once [loading] is
    false; the events are not restricted to that here. *)
Inductive Event : Type :=
| Fetched
| FetchFailed (message : string)
| AgeTyped (text : string)
| SalaryTyped (text : string)
| YtdTyped (text : string)
| BalanceTyped (text : string)
| SavedPercentTyped (text : string)
| PercentChosen
| DollarChosen
| ValueTyped (text : string)
| ResetPressed
| SavePressed (net : Net).

(** One event, on the page and the backend behind it. *)
Definition step
    (e : Event) (c : State * Backend.ContributionState)
  : State * Backend.ContributionState :=
  let (s, st) := c in
  match e with
  | Fetched => (load st s, st)
  | FetchFailed message => (fetchData (GetThrew message) s, st)
  | AgeTyped text =>
      (with_snapshot (typed_number text) (salary s) (ytd s)
         (currentBalance s) (savedPercent s) s, st)
  | SalaryTyped text =>
      (with_snapshot (age s) (typed_number text) (ytd s)
         (currentBalance s) (savedPercent s) s, st)
  | YtdTyped text =>
      (with_snapshot (age s) (salary s) (typed_number text)
         (currentBalance s) (savedPercent s) s, st)
  | BalanceTyped text =>
      (with_snapshot (age s) (salary s) (ytd s)
         (typed_number text) (savedPercent s) s, st)
  | SavedPercentTyped text =>
      (with_snapshot (age s) (salary s) (ytd s)
         (currentBalance s) (typed_number text) s, st)
  | PercentChosen => (with_selection "percent" (contributionValue s) s, st)
  | DollarChosen => (with_selection "dollar" (contributionValue s) s, st)
  | ValueTyped text => (with_selection (contributionType s) (VStr text) s, st)
  | ResetPressed => (handleResetRecommended s, st)
  | SavePressed net => save_over net s st
  end.

Fixpoint steps
    (events : list Event) (c : State * Backend.ContributionState)
  : State * Backend.ContributionState :=
  match events with
  | [] => c
  | e :: rest => steps rest (step e c)
  end.
End Render.

(** Pages to run the handlers on: the mock store loaded; then 250 dollars
    chosen, or 60 percent typed; and 12 percent typed on a page whose data
    never arrived. *)
Definition loaded : State := load Backend.contributionState initial.

Definition dollar_250 : State :=
  with_selection "dollar" (VNum (ofZ 250)) loaded.

Definition percent_60 : State :=
  with_selection "percent" (VNum (ofZ 60)) loaded.

Definition unloaded_12 : State :=
  with_selection "percent" (VNum (ofZ 12))
    (fetchData (GetThrew "Failed to fetch") initial).

(** The store is well formed and the page holds a finite saved value. *)
Definition settled (c : State * Backend.ContributionState) : Prop :=
  Backend.well_formed (snd c) = true
  /\ exists q : Qc, savedValue (fst c) = Some (Fin q).

End App.

(** [a === a]: [a] is not [NaN]. *)
Definition notNaN (a : JS.number) : bool := JS.strict_eq a a.

(** ** The arithmetic of the page on binary64 numbers *)

Module Binary64.
Import PrimFloat.
Local Open Scope float_scope.

(** ToBoolean on a number: [0], [-0] and [NaN] are falsy. *)
Definition truthy (a : float) : bool := negb ((a =? 0) || is_nan a).

Definition nullable : Type := option float.

Definition num (x : nullable) : float :=
  match x with
  | Some n => n
  | None => 0
  end.

(** [!x] *)
Definition not_ (x : nullable) : bool :=
  match x with
  | Some n => negb (truthy n)
  | None => true
  end.

Section Projection.
(** [Math.pow], the host's. *)
Variable Math_pow : float -> float -> float.

Definition futureBalance (currentBalance r years : float) : float :=
  currentBalance * Math_pow (1 + r) years.

Definition annuityFactor (r years : float) : float :=
  if r =? 0 then years else (Math_pow (1 + r) years - 1) / r.

Definition computeProjection
    (age retirementAge : nullable) (annualReturn : float)
    (currentBalance salary : nullable) (contributionPercent : float)
  : option float :=
  match age, retirementAge, salary, currentBalance with
  | Some age, Some retirementAge, Some salary, Some currentBalance =>
      let years := retirementAge - age in
      let r := annualReturn in
      let yearlyContribution := salary * (contributionPercent / 100) in
      if years <=? 0 then
        Some (currentBalance + yearlyContribution)
      else
        let futureContributions := yearlyContribution * annuityFactor r years in
        Some (futureBalance currentBalance r years + futureContributions)
  | _, _, _, _ => None
  end.
End Projection.

Definition livePercent
    (isPercent : bool) (numericContribution : float)
    (salary payPeriods : nullable) : float :=
  if isPercent then numericContribution
  else if not_ salary || not_ payPeriods then 0
  else
    let yearlyDollar := numericContribution * num payPeriods in
    (yearlyDollar / num salary) * 100.

Definition perPaycheckDollar
    (isPercent : bool) (numericContribution : float)
    (salary payPeriods : nullable) : float :=
  if not_ salary || not_ payPeriods then 0
  else if isPercent then
    (num salary * (numericContribution / 100)) / num payPeriods
  else numericContribution.

Definition yearlyContribution
    (perPaycheckDollar : float) (payPeriods : nullable) : float :=
  if not_ payPeriods then 0
  else perPaycheckDollar * num payPeriods.

(** [Math.pow] at a base of 1, where the host returns 1 for every exponent
    that is a finite number.  The run below asks for no other value;
    elsewhere this function is [NaN] and is not the host's. *)
Definition pow_of_one (b e : float) : float :=
  if (b =? 1) && is_finite e then 1 else nan.

End Binary64.

(** ** Facts about the number model *)

Section NumberFacts.
Import JS.
Local Open Scope Qc_scope.

Lemma sgn_eq (q : Qc) : sgn q = Eq <-> q = 0.
Proof. unfold sgn. symmetry. apply Qceq_alt. Qed.

Lemma sgn_gt (q : Qc) : sgn q = Gt <-> 0 < q.
Proof. unfold sgn. symmetry. apply Qcgt_alt. Qed.

Lemma sgn_lt (q : Qc) : sgn q = Lt <-> q < 0.
Proof. unfold sgn. symmetry. apply Qclt_alt. Qed.

Lemma lt_fin (x y : Qc) : JS.lt (Fin x) (Fin y) = true <-> x < y.
Proof.
  simpl. rewrite Qclt_alt. destruct (x ?= y); split; congruence.
Qed.

Lemma lt_fin_false (x y : Qc) : JS.lt (Fin x) (Fin y) = false <-> y <= x.
Proof.
  split; intro H.
  - apply Qcnot_lt_le. intro H'. apply lt_fin in H'. congruence.
  - destruct (JS.lt (Fin x) (Fin y)) eqn:E; [|reflexivity].
    apply lt_fin in E. exfalso. exact (Qcle_not_lt _ _ H E).
Qed.

Lemma strict_eq_fin (x y : Qc) : strict_eq (Fin x) (Fin y) = true <-> x = y.
Proof.
  simpl. rewrite Qceq_alt. destruct (x ?= y); split; congruence.
Qed.

Lemma le_fin (x y : Qc) : JS.le (Fin x) (Fin y) = true <-> x <= y.
Proof.
  unfold JS.le. rewrite orb_true_iff, lt_fin, strict_eq_fin. split.
  - intros [H | H]; [apply Qclt_le_weak; exact H | subst; apply Qcle_refl].
  - apply Qcle_lt_or_eq.
Qed.

Lemma truthy_fin (q : Qc) : truthy (Fin q) = true <-> q <> 0.
Proof.
  simpl. rewrite <- sgn_eq. destruct (sgn q); split; congruence.
Qed.

Lemma or_else_zero_fin (q : Qc) : or_else (Fin q) zero = Fin q.
Proof.
  unfold or_else. destruct (truthy (Fin q)) eqn:E; [reflexivity|].
  destruct (Qc_eq_dec q 0) as [-> | H]; [reflexivity|].
  apply truthy_fin in H. congruence.
Qed.
End NumberFacts.

Section ArithmeticFacts.
Import JS.
Local Open Scope Qc_scope.

Lemma div_fin (a b : Qc) : b <> 0 -> div (Fin a) (Fin b) = Fin (a / b).
Proof.
  intro H. unfold div.
  destruct (sgn b) eqn:E; try reflexivity.
  apply sgn_eq in E. contradiction.
Qed.

Lemma div_fin_zero (a b : Qc) : b = 0 -> isFinite (div (Fin a) (Fin b)) = false.
Proof.
  intros ->. unfold div.
  replace (sgn 0) with Eq by reflexivity.
  destruct (sgn a); reflexivity.
Qed.


Lemma mul_one_r (a : number) : mul a one = a.
Proof.
  destruct a as [q | | |]; try reflexivity.
  unfold mul, one. now rewrite Qcmult_1_r.
Qed.

Lemma mul_zero_l (q : Qc) : mul zero (Fin q) = zero.
Proof. unfold mul, zero. now rewrite Qcmult_0_l. Qed.

Lemma one_plus_zero : add one zero = one.
Proof. unfold add, one, zero. now rewrite Qcplus_0_r. Qed.

Lemma Qc_pos_nonzero (q : Qc) : 0 < q -> q <> 0.
Proof. intros H E. subst. exact (Qclt_not_eq _ _ H eq_refl). Qed.

Lemma Qcmult_pos (x y : Qc) : 0 < x -> 0 < y -> 0 < x * y.
Proof.
  intros Hx Hy. rewrite <- (Qcmult_0_l y).
  apply Qcmult_lt_compat_r; assumption.
Qed.

Lemma Qcinv_pos (x : Qc) : 0 < x -> 0 < / x.
Proof.
  intro H. unfold Qclt in *.
  assert (E : (this (/ x) == / this x)%Q) by (unfold Qcinv; simpl; apply Qred_correct).
  rewrite E. apply Qinv_lt_0_compat. exact H.
Qed.
End ArithmeticFacts.

(** ** The order of the numbers and the operations

    Facts that hold of binary64 arithmetic as well: an operation on a [NaN]
    is [NaN], and the operations are monotone where no [NaN] appears. *)

Section OrderFacts.
Import JS.
Local Open Scope Qc_scope.

Lemma notNaN_fin (q : Qc) : notNaN (Fin q) = true.
Proof. apply strict_eq_fin. reflexivity. Qed.

Lemma notNaN_cases (a : number) :
  notNaN a = true -> (exists q, a = Fin q) \/ a = PInf \/ a = NInf.
Proof.
  destruct a as [q | | |]; intro H.
  - left. exists q. reflexivity.
  - right. left. reflexivity.
  - right. right. reflexivity.
  - discriminate H.
Qed.

Lemma le_notNaN (a b : number) :
  le a b = true -> notNaN a = true /\ notNaN b = true.
Proof.
  destruct a as [x | | |], b as [y | | |]; intro H;
    try discriminate H; split; try reflexivity; apply notNaN_fin.
Qed.

Lemma lt_le (a b : number) : JS.lt a b = true -> le a b = true.
Proof. intro H. unfold le. now rewrite H. Qed.

Lemma le_same (a : number) : notNaN a = true -> le a a = true.
Proof.
  intro H. unfold le. unfold notNaN in H. rewrite H. apply orb_true_r.
Qed.

Lemma le_trans (a b c : number) :
  le a b = true -> le b c = true -> le a c = true.
Proof.
  destruct a as [x | | |], b as [y | | |], c as [z | | |]; intros H1 H2;
    try discriminate H1; try discriminate H2; try reflexivity.
  apply le_fin in H1. apply le_fin in H2. apply le_fin.
  eapply Qcle_trans; eassumption.
Qed.

Lemma notNaN_add (a b : number) :
  notNaN (add a b) = true -> notNaN a = true /\ notNaN b = true.
Proof.
  destruct a, b; intro H; try discriminate H;
    split; try reflexivity; apply notNaN_fin.
Qed.

Lemma notNaN_mul (a b : number) :
  notNaN (mul a b) = true -> notNaN a = true /\ notNaN b = true.
Proof.
  destruct a, b; intro H; try discriminate H;
    split; try reflexivity; apply notNaN_fin.
Qed.

Lemma notNaN_div (a b : number) :
  notNaN (div a b) = true -> notNaN a = true /\ notNaN b = true.
Proof.
  destruct a, b; intro H; try discriminate H;
    split; try reflexivity; apply notNaN_fin.
Qed.

Lemma notNaN_sub (a b : number) :
  notNaN (sub a b) = true -> notNaN a = true /\ notNaN b = true.
Proof.
  destruct a, b; intro H; try discriminate H;
    split; try reflexivity; apply notNaN_fin.
Qed.

Ltac sgn_facts :=
  repeat match goal with
         | H : le (Fin _) (Fin _) = true |- _ => apply le_fin in H
         | H : JS.lt (Fin _) (Fin _) = true |- _ => apply lt_fin in H
         end.

Ltac qc_order_facts :=
  unfold zero, one in *; sgn_facts; subst;
  unfold Qclt, Qcle in *;
  change (this (Q2Qc 0)) with 0%Q in *;
  change (this (Q2Qc 1)) with 1%Q in *;
  lra.

Ltac split_on q :=
  let E := fresh "E" in
  destruct (sgn q) eqn:E;
  [apply (proj1 (sgn_eq _)) in E
  | apply (proj1 (sgn_lt _)) in E
  | apply (proj1 (sgn_gt _)) in E].

Ltac split_sgn :=
  repeat match goal with
         | |- (_ <=? _)%js = true =>
             match goal with |- context [sgn ?q] => split_on q end
         | H : notNaN ?t = true |- _ =>
             match t with context [sgn ?q] => split_on q end
         end.

Lemma add_mono_l (c a a' : number) :
  le a a' = true ->
  notNaN (add c a) = true -> notNaN (add c a') = true ->
  le (add c a) (add c a') = true.
Proof.
  destruct c as [z | | |], a as [x | | |], a' as [y | | |]; intros H N1 N2;
    try discriminate H; try discriminate N1; try discriminate N2;
    try reflexivity.
  cbn [add]. apply le_fin. apply le_fin in H.
  apply Qcplus_le_compat; [apply Qcle_refl | exact H].
Qed.

Lemma add_nonneg_r (a d : number) :
  le zero d = true -> notNaN (add a d) = true -> le a (add a d) = true.
Proof.
  destruct a as [x | | |], d as [y | | |]; intros H N;
    try discriminate H; try discriminate N; try reflexivity.
  cbn [add]. apply le_fin. unfold zero in H. apply le_fin in H.
  rewrite <- (Qcplus_0_r x) at 1.
  apply Qcplus_le_compat; [apply Qcle_refl | exact H].
Qed.

Lemma mul_mono_r (f y y' : number) :
  le zero f = true -> le y y' = true ->
  notNaN (mul y f) = true -> notNaN (mul y' f) = true ->
  le (mul y f) (mul y' f) = true.
Proof.
  destruct f as [f | | |], y as [y | | |], y' as [y' | | |];
    intros H0 H N1 N2;
    try discriminate H0; try discriminate H;
    cbn [mul] in *; unfold scale_inf in *; split_sgn; cbn [neg] in *;
    try discriminate N1; try discriminate N2; try reflexivity;
    try (exfalso; qc_order_facts).
  apply le_fin. unfold zero in H0. apply le_fin in H0. apply le_fin in H.
  apply Qcmult_le_compat_r; assumption.
Qed.

Lemma mul_comm (a b : number) : mul a b = mul b a.
Proof.
  destruct a as [x | | |], b as [y | | |]; try reflexivity.
  cbn [mul]. now rewrite Qcmult_comm.
Qed.

Lemma mul_mono_l (s u u' : number) :
  le zero s = true -> le u u' = true ->
  notNaN (mul s u) = true -> notNaN (mul s u') = true ->
  le (mul s u) (mul s u') = true.
Proof.
  rewrite !(mul_comm s). apply mul_mono_r.
Qed.

Lemma mul_nonneg (a b : number) :
  le zero a = true -> le zero b = true -> notNaN (mul a b) = true ->
  le zero (mul a b) = true.
Proof.
  destruct a as [x | | |], b as [y | | |]; intros Ha Hb N;
    try discriminate Ha; try discriminate Hb;
    cbn [mul] in *; unfold scale_inf in *; split_sgn; cbn [neg] in *;
    try discriminate N; try reflexivity;
    try (exfalso; qc_order_facts).
  unfold zero in *. apply le_fin. apply le_fin in Ha. apply le_fin in Hb.
  rewrite <- (Qcmult_0_l y). apply Qcmult_le_compat_r; assumption.
Qed.

Lemma mul_ge_l (a z : number) :
  le zero a = true -> le one z = true -> notNaN (mul a z) = true ->
  le a (mul a z) = true.
Proof.
  intros Ha Hz N. rewrite <- (mul_one_r a) at 1.
  apply mul_mono_l; try assumption.
  rewrite mul_one_r. apply (le_notNaN _ _ Ha).
Qed.

Lemma sgn_hundred : sgn (QcZ 100) = Gt.
Proof. reflexivity. Qed.

Lemma div_hundred_mono (x y : number) :
  le x y = true -> le (div x (ofZ 100)) (div y (ofZ 100)) = true.
Proof.
  unfold ofZ.
  destruct x as [x | | |], y as [y | | |]; intro H; try discriminate H;
    cbn [div]; rewrite ?sgn_hundred; try reflexivity.
  apply le_fin. apply le_fin in H.
  apply Qcmult_le_compat_r; [exact H|].
  apply Qclt_le_weak, Qcinv_pos. reflexivity.
Qed.

Lemma div_hundred_nonneg (x : number) :
  le zero x = true -> le zero (div x (ofZ 100)) = true.
Proof.
  intro H. apply le_trans with (b := div zero (ofZ 100)).
  - reflexivity.
  - apply div_hundred_mono. exact H.
Qed.

Lemma sub_nonneg (x y : number) :
  le x y = true -> notNaN (sub y x) = true -> le zero (sub y x) = true.
Proof.
  destruct x as [x | | |], y as [y | | |]; intros H N;
    try discriminate H; try discriminate N; try reflexivity.
  cbn [sub neg add]. unfold zero. apply le_fin. apply le_fin in H.
  apply (proj1 (Qcle_minus_iff x y)). exact H.
Qed.

Lemma div_nonneg (w r : number) :
  le zero w = true -> JS.lt zero r = true -> notNaN (div w r) = true ->
  le zero (div w r) = true.
Proof.
  destruct w as [w | | |], r as [r | | |]; intros Hw Hr N;
    try discriminate Hw; try discriminate Hr; try discriminate N;
    try reflexivity.
  - unfold zero in *. apply lt_fin in Hr. apply le_fin in Hw.
    rewrite (div_fin _ _ (Qc_pos_nonzero r Hr)). apply le_fin.
    rewrite <- (Qcmult_0_l (/ r)).
    apply Qcmult_le_compat_r; [exact Hw|].
    apply Qclt_le_weak, Qcinv_pos, Hr.
  - unfold zero in Hr. apply lt_fin in Hr. cbn [div neg].
    destruct (sgn r) eqn:E; try reflexivity.
    apply (proj1 (sgn_lt _)) in E. exfalso.
    exact (Qclt_not_le _ _ Hr (Qclt_le_weak _ _ E)).
Qed.

Lemma positive_or_zero (r : number) :
  le zero r = true -> strict_eq r zero = false -> JS.lt zero r = true.
Proof.
  destruct r as [r | | |]; intros H E; try discriminate H; try reflexivity.
  unfold zero in *. apply le_fin in H. apply lt_fin.
  destruct (Qcle_lt_or_eq _ _ H) as [Hlt | Heq]; [exact Hlt|].
  subst r. discriminate E.
Qed.

Lemma not_le_zero (a : number) :
  notNaN a = true -> le a zero = false -> le zero a = true.
Proof.
  destruct a as [q | | |]; intros N H; try discriminate N;
    try discriminate H; try reflexivity.
  unfold zero in *. apply le_fin. apply Qclt_le_weak, Qcnot_le_lt.
  intro G. apply le_fin in G. congruence.
Qed.

Lemma lt_not_le (a : number) :
  JS.lt zero a = true -> le a zero = false.
Proof.
  destruct a as [q | | |]; intro H; try discriminate H; try reflexivity.
  unfold zero in *. apply lt_fin in H.
  destruct (le (Fin q) (Fin 0)) eqn:E; [|reflexivity].
  apply le_fin in E. exfalso. exact (Qclt_not_le _ _ H E).
Qed.

Section Projection.
Import Frontend.
Variable Math_pow : number -> number -> number.

Lemma annuityFactor_nonneg (r years : number) :
  le zero r = true -> le years zero = false ->
  le one (Math_pow (add one r) years) = true ->
  notNaN (annuityFactor Math_pow r years) = true ->
  le zero (annuityFactor Math_pow r years) = true.
Proof.
  unfold annuityFactor. intros Hr Hy Hz N.
  destruct (strict_eq r zero) eqn:E.
  - apply not_le_zero; assumption.
  - apply div_nonneg; [|apply positive_or_zero; assumption | exact N].
    apply sub_nonneg; [exact Hz|].
    apply (notNaN_div _ _ N).
Qed.

(** The projection on two percents, the other inputs being the same. *)
Lemma projection_le
    (age retirementAge r currentBalance salary p p' x y : number) :
  le zero salary = true -> le zero r = true ->
  (le (sub retirementAge age) zero = false ->
   le one (Math_pow (add one r) (sub retirementAge age)) = true) ->
  computeProjection Math_pow (Some age) (Some retirementAge) r
    (Some currentBalance) (Some salary) p = Some x ->
  computeProjection Math_pow (Some age) (Some retirementAge) r
    (Some currentBalance) (Some salary) p' = Some y ->
  notNaN x = true -> notNaN y = true -> le p p' = true ->
  le x y = true.
Proof.
  intros Hs Hr Hz. unfold computeProjection.
  destruct (le (sub retirementAge age) zero) eqn:Ey;
    intros [= <-] [= <-] Nx Ny Hp.
  - destruct (notNaN_add _ _ Nx) as [_ Nx'].
    destruct (notNaN_add _ _ Ny) as [_ Ny'].
    apply add_mono_l; try assumption.
    apply mul_mono_l; try assumption.
    apply div_hundred_mono. exact Hp.
  - destruct (notNaN_add _ _ Nx) as [_ Nx'].
    destruct (notNaN_add _ _ Ny) as [_ Ny'].
    destruct (notNaN_mul _ _ Nx') as [Nx'' Nf].
    destruct (notNaN_mul _ _ Ny') as [Ny'' _].
    apply add_mono_l; try assumption.
    apply mul_mono_r; try assumption.
    + apply annuityFactor_nonneg; try assumption. exact (Hz eq_refl).
    + apply mul_mono_l; try assumption.
      apply div_hundred_mono. exact Hp.
Qed.

(** A projection that is a number has a percent that is a number. *)
Lemma projection_percent_notNaN
    (age retirementAge r currentBalance salary p y : number) :
  computeProjection Math_pow (Some age) (Some retirementAge) r
    (Some currentBalance) (Some salary) p = Some y ->
  notNaN y = true -> notNaN p = true.
Proof.
  unfold computeProjection.
  destruct (le (sub retirementAge age) zero); intros [= <-] N.
  - destruct (notNaN_add _ _ N) as [_ N1].
    destruct (notNaN_mul _ _ N1) as [_ N2].
    apply (notNaN_div _ _ N2).
  - destruct (notNaN_add _ _ N) as [_ N1].
    destruct (notNaN_mul _ _ N1) as [N2 _].
    destruct (notNaN_mul _ _ N2) as [_ N3].
    apply (notNaN_div _ _ N3).
Qed.

(** The projection against the balance. *)
Lemma projection_ge_balance
    (age retirementAge r currentBalance salary p x : number) :
  le zero currentBalance = true -> le zero salary = true ->
  le zero p = true -> le zero r = true ->
  (le (sub retirementAge age) zero = false ->
   le one (Math_pow (add one r) (sub retirementAge age)) = true) ->
  computeProjection Math_pow (Some age) (Some retirementAge) r
    (Some currentBalance) (Some salary) p = Some x ->
  notNaN x = true ->
  le currentBalance x = true.
Proof.
  intros Hcb Hs Hp Hr Hz. unfold computeProjection.
  destruct (le (sub retirementAge age) zero) eqn:Ey; intros [= <-] N.
  - destruct (notNaN_add _ _ N) as [_ N1].
    apply add_nonneg_r; [|exact N].
    apply mul_nonneg; [exact Hs | | exact N1].
    apply div_hundred_nonneg. exact Hp.
  - destruct (notNaN_add _ _ N) as [N0 N1].
    destruct (notNaN_mul _ _ N1) as [N2 Nf].
    apply le_trans with (b := futureBalance Math_pow currentBalance r
                                (sub retirementAge age)).
    + unfold futureBalance in *. apply mul_ge_l; try assumption.
      exact (Hz eq_refl).
    + apply add_nonneg_r; [|exact N].
      apply mul_nonneg; [| |exact N1].
      * apply mul_nonneg; [exact Hs | | exact N2].
        apply div_hundred_nonneg. exact Hp.
      * apply annuityFactor_nonneg; try assumption. exact (Hz eq_refl).
Qed.
End Projection.

End OrderFacts.

(** ** The contribution normaliser *)

Section NormalizerFacts.
Import JS Frontend.
Local Open Scope Qc_scope.
Variable StringToNumber : string -> number.

Lemma numericContribution_fin (v : Qc) :
  numericContribution StringToNumber (VNum (Fin v)) = Fin v.
Proof. unfold numericContribution. simpl. apply or_else_zero_fin. Qed.

Lemma not_fin (q : Qc) : not_ (Some (Fin q)) = false <-> q <> 0.
Proof.
  unfold not_. rewrite negb_false_iff. apply truthy_fin.
Qed.

Lemma not_fin_zero : not_ (Some (Fin 0)) = true.
Proof. reflexivity. Qed.

Lemma not_fin_pos (q : Qc) : 0 < q -> not_ (Some (Fin q)) = false.
Proof. intro H. apply not_fin, Qc_pos_nonzero, H. Qed.

Lemma gt_zero_fin (q : Qc) : gt (Fin q) zero = true <-> 0 < q.
Proof. unfold gt, zero. apply lt_fin. Qed.

(** C1.  The percent the GET handler reports for the stored selection is
    the percent the page computes live from the fields of the same
    response, for a selection of type percent or dollar with a value
    [>= 0] and a snapshot with salary [>= 0] and 1 to 52 pay periods. *)
Theorem currentPercent_matches_livePercent
    (st : Backend.ContributionState) (v s pp : Qc) :
  Backend.contributionType st = "percent"
    \/ Backend.contributionType st = "dollar" ->
  Backend.contributionValue st = Fin v -> 0 <= v ->
  Backend.salary st = Fin s -> 0 <= s ->
  Backend.payPeriodsPerYear st = Fin pp -> 1 <= pp <= QcZ 52 ->
  let data := Backend.get_contribution st in
  Backend.res_currentPercent data =
  livePercent
    (isPercent (Backend.res_contributionType data))
    (numericContribution StringToNumber
       (VNum (Backend.res_contributionValue data)))
    (Some (Backend.res_salary data))
    (Some (Backend.res_payPeriodsPerYear data)).
Proof.
  intros _ Hv _ Hs Hs0 Hpp [Hpp1 _]. cbv zeta.
  unfold Backend.get_contribution, Backend.currentPercent, livePercent,
    isPercent. cbn [Backend.res_currentPercent Backend.res_contributionType
    Backend.res_contributionValue Backend.res_salary
    Backend.res_payPeriodsPerYear].
  rewrite Hv, Hs, Hpp, numericContribution_fin.
  destruct (String.eqb (Backend.contributionType st) "percent");
    [reflexivity|].
  assert (Hpp0 : 0 < pp).
  { apply Qclt_le_trans with (y := 1); [reflexivity | exact Hpp1]. }
  rewrite (proj2 (gt_zero_fin pp) Hpp0), (not_fin_pos pp Hpp0).
  rewrite andb_true_r, orb_false_r.
  destruct (Qcle_lt_or_eq _ _ Hs0) as [Hpos | <-].
  - rewrite (proj2 (gt_zero_fin s) Hpos), (not_fin_pos s Hpos). reflexivity.
  - reflexivity.
Qed.

(** C3, amended.  For a dollar selection of value [v >= 0] and a snapshot
    with salary [s >= 0] and 1 to 52 pay periods, the equivalent percent is
    [(v * payPeriods / s) * 100] when [s > 0] and [0] when [s = 0]; the
    amount per paycheck is [v] and the yearly amount [v * payPeriods] when
    [s > 0], and both are [0] when [s = 0]. *)
Theorem dollar_normalization (v s pp : Qc) :
  0 <= v -> 0 <= s -> 1 <= pp <= QcZ 52 ->
  let n := normalizeContribution StringToNumber "dollar" (VNum (Fin v))
             (Some (Fin s)) (Some (Fin pp)) in
  equivalentPercent n =
    (if gt (Fin s) zero
     then mul (div (mul (Fin v) (Fin pp)) (Fin s)) (ofZ 100)
     else zero)
  /\ (0 < s ->
      perPaycheckAmount n = Fin v
      /\ yearlyAmount n = mul (Fin v) (Fin pp))
  /\ (s = 0 -> perPaycheckAmount n = zero /\ yearlyAmount n = zero).
Proof.
  intros _ Hs0 [Hpp1 _]. cbv zeta.
  assert (Hpp0 : 0 < pp).
  { apply Qclt_le_trans with (y := 1); [reflexivity | exact Hpp1]. }
  unfold normalizeContribution, livePercent, perPaycheckDollar,
    yearlyContribution.
  cbn [equivalentPercent perPaycheckAmount yearlyAmount].
  replace (isPercent "dollar") with false by reflexivity.
  rewrite numericContribution_fin, (not_fin_pos pp Hpp0), orb_false_r.
  cbn [num].
  repeat split.
  - destruct (Qcle_lt_or_eq _ _ Hs0) as [Hpos | <-].
    + rewrite (proj2 (gt_zero_fin s) Hpos), (not_fin_pos s Hpos).
      reflexivity.
    + reflexivity.
  - rewrite (not_fin_pos s H). reflexivity.
  - rewrite (not_fin_pos s H). reflexivity.
  - subst s. reflexivity.
  - subst s. rewrite not_fin_zero. apply mul_zero_l.
Qed.

(** C4.  For a dollar selection, whatever its value, and a snapshot whose
    salary or pay-period count is [0], the equivalent percent, the amount
    per paycheck and the yearly amount are all [0], hence finite: no [NaN]
    and no infinity is produced. *)
Theorem zero_guard (contributionValue : value) (s pp : Qc) :
  s = 0 \/ pp = 0 ->
  let n := normalizeContribution StringToNumber "dollar" contributionValue
             (Some (Fin s)) (Some (Fin pp)) in
  equivalentPercent n = zero
  /\ perPaycheckAmount n = zero
  /\ yearlyAmount n = zero
  /\ isFinite (equivalentPercent n) && isFinite (perPaycheckAmount n)
     && isFinite (yearlyAmount n) = true.
Proof.
  intro H. cbv zeta.
  unfold normalizeContribution, livePercent, perPaycheckDollar,
    yearlyContribution.
  cbn [equivalentPercent perPaycheckAmount yearlyAmount].
  replace (isPercent "dollar") with false by reflexivity.
  assert (G : not_ (Some (Fin s)) || not_ (Some (Fin pp)) = true).
  { destruct H as [-> | ->]; rewrite not_fin_zero.
    - reflexivity.
    - apply orb_true_r. }
  rewrite G. cbn [num].
  assert (Y : (if not_ (Some (Fin pp)) then zero else mul zero (Fin pp))
              = zero).
  { destruct (not_ (Some (Fin pp))); [reflexivity | apply mul_zero_l]. }
  rewrite Y. repeat split.
Qed.

(** The yearly amount is computed from the amount per paycheck. *)
Lemma yearlyAmount_from_paycheck
    (contributionType : string) (contributionValue : value) (s pp : Qc) :
  pp <> 0 ->
  let n := normalizeContribution StringToNumber contributionType
             contributionValue (Some (Fin s)) (Some (Fin pp)) in
  yearlyAmount n = mul (perPaycheckAmount n) (Fin pp).
Proof.
  intro H. cbv zeta. unfold normalizeContribution, yearlyContribution.
  cbn [yearlyAmount perPaycheckAmount num].
  now rewrite (proj2 (not_fin pp) H).
Qed.

(** The GET handler has the same guard for a dollar selection. *)
Lemma currentPercent_zero_guard (st : Backend.ContributionState) :
  Backend.contributionType st = "dollar" ->
  Backend.salary st = zero \/ Backend.payPeriodsPerYear st = zero ->
  Backend.currentPercent st = zero.
Proof.
  intros Hty H. unfold Backend.currentPercent. rewrite Hty.
  replace (String.eqb "dollar" "percent") with false by reflexivity.
  destruct H as [-> | ->]; [reflexivity|].
  now rewrite andb_false_r.
Qed.

(** C7, amended.  For a percent selection of value [v] and a snapshot with
    salary [s > 0] and [payPeriods > 0], the equivalent percent is [v], the
    amount per paycheck is [s * (v / 100) / payPeriods] and the yearly
    amount is the amount per paycheck times [payPeriods], that is
    [(s * (v / 100) / payPeriods) * payPeriods]: it is [s * (v / 100)] up
    to the rounding of the division and the product. *)
Theorem percent_normalization (v s pp : Qc) :
  0 < s -> 0 < pp ->
  let n := normalizeContribution StringToNumber "percent" (VNum (Fin v))
             (Some (Fin s)) (Some (Fin pp)) in
  equivalentPercent n = Fin v
  /\ perPaycheckAmount n = div (mul (Fin s) (div (Fin v) (ofZ 100))) (Fin pp)
  /\ yearlyAmount n
     = mul (div (mul (Fin s) (div (Fin v) (ofZ 100))) (Fin pp)) (Fin pp).
Proof.
  intros Hs Hpp. cbv zeta.
  unfold normalizeContribution, livePercent, perPaycheckDollar,
    yearlyContribution.
  cbn [equivalentPercent perPaycheckAmount yearlyAmount].
  replace (isPercent "percent") with true by reflexivity.
  rewrite numericContribution_fin, (not_fin_pos pp Hpp), (not_fin_pos s Hs).
  cbn [orb num].
  repeat split.
Qed.
End NormalizerFacts.

(** ** The retirement projector *)

Section ProjectorFacts.
Import JS Frontend.
Local Open Scope Qc_scope.
Variable Math_pow : number -> number -> number.

Lemma years_positive (a ra : Qc) :
  a < ra -> le (sub (Fin ra) (Fin a)) zero = false.
Proof.
  intro H. cbn [sub neg add]. unfold zero.
  destruct (le (Fin (ra + - a)) (Fin 0)) eqn:E; [|reflexivity].
  apply le_fin in E. apply (proj1 (Qclt_minus_iff a ra)) in H.
  exfalso. exact (Qcle_not_lt _ _ E H).
Qed.

(** C2.  The projection is [null] exactly when one of [age],
    [retirementAge], [salary], [currentBalance] is absent; with all four
    present it is a number.  The function is total: it never throws. *)
Theorem computeProjection_indeterminate
    (age retirementAge : nullable) (annualReturn : number)
    (currentBalance salary : nullable) (contributionPercent : number) :
  let result := computeProjection Math_pow age retirementAge annualReturn
                  currentBalance salary contributionPercent in
  (age = None \/ retirementAge = None \/ salary = None
     \/ currentBalance = None -> result = None)
  /\ (age <> None /\ retirementAge <> None /\ salary <> None
        /\ currentBalance <> None -> exists n : number, result = Some n).
Proof.
  cbv zeta. unfold computeProjection. split.
  - destruct age, retirementAge, salary, currentBalance;
      intros [H | [H | [H | H]]]; try reflexivity; discriminate H.
  - intros (Ha & Hr & Hs & Hc).
    destruct age as [a|]; [|contradiction].
    destruct retirementAge as [ra|]; [|contradiction].
    destruct salary as [s|]; [|contradiction].
    destruct currentBalance as [cb|]; [|contradiction].
    destruct (le (sub ra a) zero); eexists; reflexivity.
Qed.

(** C5.  With all inputs present and [retirementAge - age <= 0], the
    projection is exactly [currentBalance + salary * (percent / 100)]:
    one yearly contribution and no growth. *)
Theorem at_retirement_no_growth
    (age retirementAge annualReturn currentBalance salary
       contributionPercent : number) :
  le (sub retirementAge age) zero = true ->
  computeProjection Math_pow (Some age) (Some retirementAge) annualReturn
    (Some currentBalance) (Some salary) contributionPercent
  = Some (add currentBalance
            (mul salary (div contributionPercent (ofZ 100)))).
Proof.
  intro H. unfold computeProjection. rewrite H. reflexivity.
Qed.

(** C6.  With a zero annual return, [retirementAge - age > 0] and all
    inputs present, the annuity factor is the number of years and the
    projection is [currentBalance + yearly * years], where
    [yearly = salary * (percent / 100)].  [Math.pow(1, years)] is [1]. *)
Theorem zero_return_degenerates
    (age retirementAge : Qc) (currentBalance salary
       contributionPercent : number) :
  age < retirementAge ->
  Math_pow one (sub (Fin retirementAge) (Fin age)) = one ->
  let years := sub (Fin retirementAge) (Fin age) in
  annuityFactor Math_pow zero years = years
  /\ computeProjection Math_pow (Some (Fin age)) (Some (Fin retirementAge))
       zero (Some currentBalance) (Some salary) contributionPercent
     = Some (add currentBalance
               (mul (mul salary (div contributionPercent (ofZ 100)))
                  years)).
Proof.
  intros Hy Hpow. cbv zeta. split; [reflexivity|].
  unfold computeProjection. rewrite (years_positive _ _ Hy).
  unfold futureBalance, annuityFactor.
  rewrite one_plus_zero, Hpow, mul_one_r. reflexivity.
Qed.

(** C8, amended.  With all inputs present, [salary > 0],
    [retirementAge - age > 0] and an annual return [r >= 0], raising the
    contribution percent by [delta > 0] does not lower the projection,
    as long as neither projection is [NaN]; it need not raise it, since
    the sum can absorb the added contribution.  [Math.pow(1 + r, years)]
    is at least 1. *)
Theorem projection_monotone
    (age retirementAge r currentBalance salary p delta : number) :
  JS.lt zero salary = true ->
  JS.lt zero (sub retirementAge age) = true ->
  le zero r = true ->
  JS.lt zero delta = true ->
  le one (Math_pow (add one r) (sub retirementAge age)) = true ->
  exists x y : number,
    computeProjection Math_pow (Some age) (Some retirementAge) r
      (Some currentBalance) (Some salary) p = Some x
    /\ computeProjection Math_pow (Some age) (Some retirementAge) r
         (Some currentBalance) (Some salary) (add p delta) = Some y
    /\ (notNaN x = true -> notNaN y = true -> le x y = true).
Proof.
  intros Hs Hy Hr Hd Hz.
  assert (Hx : exists x,
             computeProjection Math_pow (Some age) (Some retirementAge) r
               (Some currentBalance) (Some salary) p = Some x).
  { unfold computeProjection. rewrite (lt_not_le _ Hy). eexists. reflexivity. }
  assert (Hy' : exists y,
             computeProjection Math_pow (Some age) (Some retirementAge) r
               (Some currentBalance) (Some salary) (add p delta) = Some y).
  { unfold computeProjection. rewrite (lt_not_le _ Hy). eexists. reflexivity. }
  destruct Hx as (x & Hx). destruct Hy' as (y & Hy').
  exists x, y. split; [exact Hx|]. split; [exact Hy'|].
  intros Nx Ny.
  apply (projection_le Math_pow age retirementAge r currentBalance salary
           p (add p delta) x y); try assumption.
  - apply lt_le. exact Hs.
  - intros _. exact Hz.
  - apply add_nonneg_r; [apply lt_le; exact Hd|].
    exact (projection_percent_notNaN Math_pow _ _ _ _ _ _ _ Hy' Ny).
Qed.
End ProjectorFacts.

(** ** The contribution store *)

Section StoreFacts.
Import JS Backend.
Local Open Scope Qc_scope.
Variable StringToNumber : string -> number.

Lemma lt_false_le (a b : number) :
  isFinite a = true -> isFinite b = true ->
  JS.lt a b = false -> JS.le b a = true.
Proof.
  destruct a as [x | | |], b as [y | | |]; try discriminate.
  intros _ _ H. apply le_fin. apply lt_fin_false. exact H.
Qed.

(** The handler answers 400 exactly on the four validation failures. *)
Lemma post_rejects_iff (body : Body) (st : ContributionState) :
  let valueNum := Number StringToNumber (req_contributionValue body) in
  status (fst (post_contribution StringToNumber body st)) = 400%Z
  <-> negb (includes ["percent"; "dollar"] (req_contributionType body))
      || negb (isFinite valueNum) || JS.lt valueNum zero
      || is_string (req_contributionType body) "percent"
         && JS.gt valueNum (ofZ 50)
      || is_string (req_contributionType body) "dollar"
         && JS.gt valueNum (ofZ 5000) = true.
Proof.
  cbv zeta. unfold post_contribution.
  destruct (includes _ _), (isFinite _), (JS.lt _ zero),
    (is_string _ "percent"), (JS.gt _ (ofZ 50)),
    (is_string _ "dollar"), (JS.gt _ (ofZ 5000));
    cbn [negb orb andb fst status]; split; intro H;
    try reflexivity; discriminate H.
Qed.

(** C9.  A request answered with status 400 leaves the stored
    [contributionState] as it was. *)
Theorem rejected_post_keeps_state (body : Body) (st : ContributionState) :
  status (fst (post_contribution StringToNumber body st)) = 400%Z ->
  snd (post_contribution StringToNumber body st) = st.
Proof.
  unfold post_contribution.
  destruct (negb (includes _ _)); [reflexivity|].
  destruct (negb (isFinite _) || JS.lt _ zero)%bool; [reflexivity|].
  destruct (is_string _ "percent" && _)%bool; [reflexivity|].
  destruct (is_string _ "dollar" && _)%bool; [reflexivity|].
  simpl. discriminate.
Qed.

Ltac fields :=
  cbn [userId age salary payPeriodsPerYear ytdContribution contributionType
       contributionValue currentBalance].

Lemma update_snapshot_preserves
    (P : ContributionState -> Prop) (field : value)
    (valid : number -> bool)
    (set : number -> ContributionState -> ContributionState)
    (st : ContributionState) :
  (forall n st, valid n = true -> P st -> P (set n st)) ->
  P st -> P (update_snapshot StringToNumber field valid set st).
Proof.
  intros Hset HP. unfold update_snapshot.
  destruct (is_undefined field); [exact HP|].
  destruct (valid (Number StringToNumber field)) eqn:E; [|exact HP].
  apply Hset; assumption.
Qed.

Lemma update_snapshot_frame
    (A : Type) (proj : ContributionState -> A) (field : value)
    (valid : number -> bool)
    (set : number -> ContributionState -> ContributionState)
    (st : ContributionState) :
  (forall n st, proj (set n st) = proj st) ->
  proj (update_snapshot StringToNumber field valid set st) = proj st.
Proof.
  intro Hset. unfold update_snapshot.
  destruct (is_undefined field); [reflexivity|].
  destruct (valid (Number StringToNumber field)); [apply Hset|reflexivity].
Qed.

Lemma update_snapshot_skipped
    (field : value) (valid : number -> bool)
    (set : number -> ContributionState -> ContributionState)
    (st : ContributionState) :
  skipped StringToNumber field valid ->
  update_snapshot StringToNumber field valid set st = st.
Proof.
  unfold skipped, update_snapshot. intros [-> | H]; [reflexivity|].
  destruct (is_undefined field); [reflexivity|]. now rewrite H.
Qed.

Lemma well_formed_set_age (n : number) (st : ContributionState) :
  valid_age n = true -> well_formed st = true ->
  well_formed (set_age n st) = true.
Proof.
  unfold valid_age, well_formed, set_age. fields.
  rewrite !andb_true_iff. tauto.
Qed.

Lemma well_formed_set_salary (n : number) (st : ContributionState) :
  valid_salary n = true -> well_formed st = true ->
  well_formed (set_salary n st) = true.
Proof.
  unfold valid_salary, well_formed, set_salary. fields.
  rewrite !andb_true_iff. tauto.
Qed.

Lemma well_formed_set_ytdContribution (n : number) (st : ContributionState) :
  valid_ytdContribution n = true -> well_formed st = true ->
  well_formed (set_ytdContribution n st) = true.
Proof.
  unfold valid_ytdContribution, well_formed, set_ytdContribution. fields.
  rewrite !andb_true_iff. tauto.
Qed.

Lemma well_formed_set_currentBalance (n : number) (st : ContributionState) :
  valid_currentBalance n = true -> well_formed st = true ->
  well_formed (set_currentBalance n st) = true.
Proof.
  unfold valid_currentBalance, well_formed, set_currentBalance. fields.
  rewrite !andb_true_iff. tauto.
Qed.

Lemma well_formed_set_payPeriodsPerYear
    (n : number) (st : ContributionState) :
  valid_payPeriodsPerYear n = true -> well_formed st = true ->
  well_formed (set_payPeriodsPerYear n st) = true.
Proof.
  unfold valid_payPeriodsPerYear, well_formed, set_payPeriodsPerYear.
  fields. rewrite !andb_true_iff. tauto.
Qed.

Lemma well_formed_set_selection
    (ty : string) (v : number) (st : ContributionState) :
  String.eqb ty "percent" || String.eqb ty "dollar" = true ->
  isFinite v = true -> JS.lt v zero = false ->
  String.eqb ty "percent" && JS.gt v (ofZ 50) = false ->
  String.eqb ty "dollar" && JS.gt v (ofZ 5000) = false ->
  well_formed st = true ->
  well_formed (set_selection ty v st) = true.
Proof.
  intros Hty Hfin Hneg Hpct Hdol.
  unfold well_formed, set_selection. fields.
  rewrite !andb_true_iff. intros H.
  assert (G0 : JS.ge v zero = true)
    by (apply lt_false_le; [exact Hfin | reflexivity | exact Hneg]).
  assert (G1 : (if String.eqb ty "percent" then JS.le v (ofZ 50) else true)
               = true).
  { destruct (String.eqb ty "percent"); [|reflexivity].
    apply lt_false_le; [reflexivity | exact Hfin | exact Hpct]. }
  assert (G2 : (if String.eqb ty "dollar" then JS.le v (ofZ 5000) else true)
               = true).
  { destruct (String.eqb ty "dollar"); [|reflexivity].
    apply lt_false_le; [reflexivity | exact Hfin | exact Hdol]. }
  tauto.
Qed.

(** C10.  The initial store is well formed, and a POST request, accepted
    or rejected, takes a well-formed store to a well-formed store; an
    optional snapshot field that is not sent or not valid keeps its
    stored value. *)
Theorem store_stays_well_formed :
  well_formed contributionState = true
  /\ forall (body : Body) (st : ContributionState),
       well_formed st = true ->
       let st' := snd (post_contribution StringToNumber body st) in
       well_formed st' = true
       /\ (skipped StringToNumber (req_age body) valid_age ->
           age st' = age st)
       /\ (skipped StringToNumber (req_salary body) valid_salary ->
           salary st' = salary st)
       /\ (skipped StringToNumber (req_ytdContribution body)
             valid_ytdContribution ->
           ytdContribution st' = ytdContribution st)
       /\ (skipped StringToNumber (req_currentBalance body)
             valid_currentBalance ->
           currentBalance st' = currentBalance st)
       /\ (skipped StringToNumber (req_payPeriodsPerYear body)
             valid_payPeriodsPerYear ->
           payPeriodsPerYear st' = payPeriodsPerYear st).
Proof.
  split; [reflexivity|].
  intros body st Hwf. cbv zeta. unfold post_contribution.
  destruct (includes _ (req_contributionType body)) eqn:Hinc;
    cbn [negb]; [|cbn [snd]; tauto].
  destruct (req_contributionType body) as [ | | | | ty | ];
    try discriminate Hinc.
  cbn [includes existsb] in Hinc. rewrite orb_false_r in Hinc.
  destruct (isFinite _) eqn:Hfin; cbn [negb orb]; [|cbn [snd]; tauto].
  destruct (JS.lt _ zero) eqn:Hneg; [cbn [snd]; tauto|].
  cbn [is_string].
  destruct (String.eqb ty "percent" && _)%bool eqn:Hpct;
    [cbn [snd]; tauto|].
  destruct (String.eqb ty "dollar" && _)%bool eqn:Hdol;
    [cbn [snd]; tauto|].
  cbn [snd]. split.
  - repeat apply update_snapshot_preserves.
    + exact well_formed_set_payPeriodsPerYear.
    + exact well_formed_set_currentBalance.
    + exact well_formed_set_ytdContribution.
    + exact well_formed_set_salary.
    + exact well_formed_set_age.
    + apply well_formed_set_selection; assumption.
  - repeat split; intro Hskip.
    + do 4 (rewrite update_snapshot_frame by reflexivity).
      rewrite (update_snapshot_skipped _ _ _ _ Hskip). reflexivity.
    + do 3 (rewrite update_snapshot_frame by reflexivity).
      rewrite (update_snapshot_skipped _ _ _ _ Hskip).
      rewrite update_snapshot_frame by reflexivity. reflexivity.
    + do 2 (rewrite update_snapshot_frame by reflexivity).
      rewrite (update_snapshot_skipped _ _ _ _ Hskip).
      do 2 (rewrite update_snapshot_frame by reflexivity). reflexivity.
    + rewrite update_snapshot_frame by reflexivity.
      rewrite (update_snapshot_skipped _ _ _ _ Hskip).
      do 3 (rewrite update_snapshot_frame by reflexivity). reflexivity.
    + rewrite (update_snapshot_skipped _ _ _ _ Hskip).
      do 4 (rewrite update_snapshot_frame by reflexivity). reflexivity.
Qed.
End StoreFacts.

(** ** The theorems at concrete inputs *)

Import JS.
Local Open Scope Qc_scope.

Ltac qc_order :=
  vm_compute; first [reflexivity | let H := fresh in intro H; discriminate H].

Ltac number_eq :=
  vm_compute;
  match goal with
  | |- Some (Fin _) = Some (Fin _) => apply (f_equal (fun q => Some (Fin q)))
  | |- Fin _ = Fin _ => apply (f_equal Fin)
  end;
  apply Qc_is_canon; vm_compute; reflexivity.

(** A stored dollar selection of 250 per paycheck on the mock snapshot:
    the reported percent is the live percent. *)
Lemma currentPercent_matches_livePercent_witness :
  Backend.res_currentPercent
    (Backend.get_contribution
       (Backend.set_selection "dollar" (ofZ 250) Backend.contributionState))
  = Frontend.livePercent (Frontend.isPercent "dollar")
      (Frontend.numericContribution nan_strings (VNum (ofZ 250)))
      (Some (ofZ 120000)) (Some (ofZ 24)).
Proof.
  apply (currentPercent_matches_livePercent nan_strings
           (Backend.set_selection "dollar" (ofZ 250) Backend.contributionState)
           (QcZ 250) (QcZ 120000) (QcZ 24)).
  - right. reflexivity.
  - reflexivity.
  - qc_order.
  - reflexivity.
  - qc_order.
  - reflexivity.
  - split; qc_order.
Defined.

(** Nothing is known yet, then everything is. *)
Lemma computeProjection_indeterminate_witness :
  Frontend.computeProjection pow_int None (Some (ofZ 65)) (Fin (Q2Qc (5 # 100)))
    None (Some (ofZ 120000)) (ofZ 10) = None
  /\ exists n : number,
       Frontend.computeProjection pow_int (Some (ofZ 30)) (Some (ofZ 65))
         (Fin (Q2Qc (5 # 100))) (Some (ofZ 15000)) (Some (ofZ 120000))
         (ofZ 10) = Some n.
Proof.
  split.
  - apply (computeProjection_indeterminate pow_int None (Some (ofZ 65))
             (Fin (Q2Qc (5 # 100))) None (Some (ofZ 120000)) (ofZ 10)).
    left. reflexivity.
  - apply (computeProjection_indeterminate pow_int (Some (ofZ 30))
             (Some (ofZ 65)) (Fin (Q2Qc (5 # 100))) (Some (ofZ 15000))
             (Some (ofZ 120000)) (ofZ 10)).
    repeat split; discriminate.
Defined.

(** C3 as stated fails: 100 dollars per paycheck with a salary of 0 and 24
    pay periods gives an amount per paycheck and a yearly amount of 0, not
    100 and 2400. *)
Lemma dollar_zero_salary_counterexample :
  0 <= QcZ 100 /\ 0 <= 0 /\ 1 <= QcZ 24 <= QcZ 52
  /\ Frontend.perPaycheckAmount
       (Frontend.normalizeContribution nan_strings "dollar" (VNum (ofZ 100))
          (Some zero) (Some (ofZ 24)))
     <> ofZ 100
  /\ Frontend.yearlyAmount
       (Frontend.normalizeContribution nan_strings "dollar" (VNum (ofZ 100))
          (Some zero) (Some (ofZ 24)))
     <> mul (ofZ 100) (ofZ 24).
Proof.
  repeat split; qc_order.
Qed.

(** 250 dollars per paycheck on a salary of 120000 with 24 pay periods. *)
Lemma dollar_normalization_witness :
  Frontend.equivalentPercent
    (Frontend.normalizeContribution nan_strings "dollar" (VNum (ofZ 250))
       (Some (ofZ 120000)) (Some (ofZ 24)))
  = ofZ 5
  /\ Frontend.perPaycheckAmount
       (Frontend.normalizeContribution nan_strings "dollar" (VNum (ofZ 250))
          (Some (ofZ 120000)) (Some (ofZ 24)))
     = ofZ 250
  /\ Frontend.yearlyAmount
       (Frontend.normalizeContribution nan_strings "dollar" (VNum (ofZ 250))
          (Some (ofZ 120000)) (Some (ofZ 24)))
     = ofZ 6000.
Proof.
  assert (Hv : 0 <= QcZ 250) by qc_order.
  assert (Hs : 0 <= QcZ 120000) by qc_order.
  assert (Hpp : 1 <= QcZ 24 <= QcZ 52) by (split; qc_order).
  destruct (dollar_normalization nan_strings (QcZ 250) (QcZ 120000) (QcZ 24)
              Hv Hs Hpp) as (Hpct & Hpos & _).
  assert (Hs' : 0 < QcZ 120000) by qc_order.
  destruct (Hpos Hs') as (Hper & Hyear).
  split; [|split].
  - etransitivity; [exact Hpct | number_eq].
  - exact Hper.
  - etransitivity; [exact Hyear | number_eq].
Defined.

(** A dollar selection with a salary of 0. *)
Lemma zero_guard_witness :
  Frontend.yearlyAmount
    (Frontend.normalizeContribution nan_strings "dollar" (VNum (ofZ 100))
       (Some (Fin 0)) (Some (Fin (QcZ 24))))
  = zero.
Proof.
  apply (zero_guard nan_strings (VNum (ofZ 100)) 0 (QcZ 24)).
  left. reflexivity.
Defined.

(** 10 percent of a salary of 120000 with 24 pay periods. *)
Lemma percent_normalization_witness :
  Frontend.yearlyAmount
    (Frontend.normalizeContribution nan_strings "percent" (VNum (ofZ 10))
       (Some (ofZ 120000)) (Some (ofZ 24)))
  = mul (div (mul (ofZ 120000) (div (ofZ 10) (ofZ 100))) (ofZ 24)) (ofZ 24).
Proof.
  assert (Hs : 0 < QcZ 120000) by qc_order.
  assert (Hpp : 0 < QcZ 24) by qc_order.
  destruct (percent_normalization nan_strings (QcZ 10) (QcZ 120000) (QcZ 24)
              Hs Hpp) as (_ & _ & Hyear).
  exact Hyear.
Defined.

(** Age 70 with a retirement age of 65. *)
Lemma at_retirement_no_growth_witness :
  Frontend.computeProjection pow_int (Some (ofZ 70)) (Some (ofZ 65))
    (Fin (Q2Qc (5 # 100))) (Some (ofZ 15000)) (Some (ofZ 120000)) (ofZ 10)
  = Some (ofZ 27000).
Proof.
  etransitivity.
  - apply (at_retirement_no_growth pow_int (ofZ 70) (ofZ 65)
             (Fin (Q2Qc (5 # 100))) (ofZ 15000) (ofZ 120000) (ofZ 10)).
    reflexivity.
  - number_eq.
Defined.

(** Age 30, retirement at 65, no return: 35 yearly contributions of 12000. *)
Lemma zero_return_degenerates_witness :
  Frontend.computeProjection pow_int (Some (ofZ 30)) (Some (ofZ 65))
    zero (Some (ofZ 15000)) (Some (ofZ 120000)) (ofZ 10)
  = Some (ofZ 435000).
Proof.
  assert (Hy : QcZ 30 < QcZ 65) by qc_order.
  assert (Hpow : pow_int one (sub (Fin (QcZ 65)) (Fin (QcZ 30))) = one)
    by number_eq.
  destruct (zero_return_degenerates pow_int (QcZ 30) (QcZ 65) (ofZ 15000)
              (ofZ 120000) (ofZ 10) Hy Hpow) as (_ & H).
  etransitivity; [exact H | number_eq].
Defined.

(** The mock account at a return of 5 percent: 11 percent projects to no
    less than 10 percent. *)
Lemma projection_monotone_witness :
  exists x y : number,
    Frontend.computeProjection pow_int (Some (ofZ 30)) (Some (ofZ 65))
      (Fin (Q2Qc (5 # 100))) (Some (ofZ 15000)) (Some (ofZ 120000)) (ofZ 10)
    = Some x
    /\ Frontend.computeProjection pow_int (Some (ofZ 30)) (Some (ofZ 65))
         (Fin (Q2Qc (5 # 100))) (Some (ofZ 15000)) (Some (ofZ 120000))
         (add (ofZ 10) (ofZ 1))
       = Some y
    /\ le x y = true.
Proof.
  destruct (projection_monotone pow_int (ofZ 30) (ofZ 65)
              (Fin (Q2Qc (5 # 100))) (ofZ 15000) (ofZ 120000) (ofZ 10)
              (ofZ 1) eq_refl eq_refl eq_refl eq_refl eq_refl)
    as (x & y & Hx & Hy & H).
  exists x, y. split; [exact Hx|]. split; [exact Hy|].
  apply H.
  - vm_compute in Hx. injection Hx as <-. vm_compute. reflexivity.
  - vm_compute in Hy. injection Hy as <-. vm_compute. reflexivity.
Defined.

Section Binary64Runs.
Import PrimFloat.
Local Open Scope float_scope.

(** C7 as stated fails on binary64 numbers: for 27 percent of a salary of
    120000 over 24 pay periods the page computes the yearly amount
    [(120000 * (27 / 100) / 24) * 24 = 32400.000000000007], which is not
    [120000 * (27 / 100) = 32400.000000000004]. *)
Lemma yearly_rounding_counterexample :
  (0 <? 120000) = true /\ (0 <? 24) = true
  /\ (Binary64.yearlyContribution
        (Binary64.perPaycheckDollar true 27 (Some 120000) (Some 24))
        (Some 24)
      =? 120000 * (27 / 100)) = false
  /\ (120000 * (27 / 100)
      <? Binary64.yearlyContribution
           (Binary64.perPaycheckDollar true 27 (Some 120000) (Some 24))
           (Some 24)) = true.
Proof. vm_compute. repeat split. Qed.

(** C8 as stated fails on binary64 numbers: with a balance of 10^17, a
    salary of 1, 35 years to go and no return, 10 percent and 11 percent
    project to the same balance, 10^17: the contributions of 3.5 and 3.85
    are absorbed by the sum. *)
Lemma projection_absorbed_counterexample :
  (0 <? 1) = true /\ (0 <? 65 - 30) = true /\ (0 <=? 0) = true
  /\ (0 <? 1) = true
  /\ Binary64.computeProjection Binary64.pow_of_one (Some 30) (Some 65) 0
       (Some 100000000000000000) (Some 1) (10 + 1)
     = Some 100000000000000000
  /\ Binary64.computeProjection Binary64.pow_of_one (Some 30) (Some 65) 0
       (Some 100000000000000000) (Some 1) 10
     = Some 100000000000000000.
Proof. vm_compute. repeat split. Qed.
End Binary64Runs.

(** A selection of type "bonus" is refused and nothing is stored. *)
Lemma rejected_post_keeps_state_witness :
  snd (Backend.post_contribution nan_strings Backend.bonus_request
         Backend.contributionState)
  = Backend.contributionState.
Proof.
  apply (rejected_post_keeps_state nan_strings Backend.bonus_request
           Backend.contributionState).
  reflexivity.
Defined.

(** The store after a dollar request on the initial store: well formed, with
    the balance and the pay periods it had. *)
Lemma store_stays_well_formed_witness :
  Backend.well_formed
    (snd (Backend.post_contribution nan_strings Backend.dollar_request
            Backend.contributionState)) = true
  /\ Backend.currentBalance
       (snd (Backend.post_contribution nan_strings Backend.dollar_request
               Backend.contributionState)) = ofZ 15000
  /\ Backend.payPeriodsPerYear
       (snd (Backend.post_contribution nan_strings Backend.dollar_request
               Backend.contributionState)) = ofZ 24.
Proof.
  destruct (store_stays_well_formed nan_strings) as (Hinit & Hstep).
  destruct (Hstep Backend.dollar_request Backend.contributionState Hinit)
    as (Hwf & _ & _ & _ & Hbal & Hpp).
  split; [exact Hwf|]. split.
  - apply Hbal. right. reflexivity.
  - apply Hpp. right. reflexivity.
Defined.

(** ** More on the contribution store *)

Section RequestFacts.
Import JS Backend Server.
Local Open Scope Qc_scope.
Variable StringToNumber : string -> number.

Ltac fields :=
  cbn [userId age salary payPeriodsPerYear ytdContribution contributionType
       contributionValue currentBalance].

Lemma post_cases (body : Body) (st : ContributionState) :
  (exists ty,
     req_contributionType body = VStr ty
     /\ acceptable ty (Number StringToNumber (req_contributionValue body))
        = true
     /\ post_contribution StringToNumber body st
        = (Saved (stored StringToNumber body ty st), stored StringToNumber body ty st))
  \/ ((forall ty, req_contributionType body = VStr ty ->
         acceptable ty (Number StringToNumber (req_contributionValue body))
         = false)
      /\ exists e, post_contribution StringToNumber body st
                   = (BadRequest e, st)).
Proof.
  destruct (req_contributionType body) as [ | | | | ty | ] eqn:Hty;
    try (right; split; [intros ? [=] |];
         unfold post_contribution; rewrite Hty; eexists; reflexivity).
  destruct (acceptable ty
              (Number StringToNumber (req_contributionValue body))) eqn:A.
  - left. exists ty. split; [reflexivity|]. split; [exact A|].
    unfold acceptable in A. rewrite !andb_true_iff, !negb_true_iff in A.
    destruct A as ((((A1 & A2) & A3) & A4) & A5).
    unfold post_contribution. rewrite Hty.
    cbn [includes existsb is_string]. cbv zeta.
    rewrite orb_false_r, A1, A2, A3, A4, A5. reflexivity.
  - right. split; [intros ty' [= <-]; exact A|].
    unfold acceptable in A. unfold post_contribution. rewrite Hty.
    cbn [includes existsb is_string]. cbv zeta. rewrite orb_false_r.
    destruct (String.eqb ty "percent" || String.eqb ty "dollar")%bool;
      cbn [negb]; [|eexists; reflexivity].
    destruct (isFinite _); cbn [negb orb]; [|eexists; reflexivity].
    destruct (JS.lt _ zero); [eexists; reflexivity|].
    destruct (String.eqb ty "percent" && _)%bool; [eexists; reflexivity|].
    destruct (String.eqb ty "dollar" && _)%bool; [eexists; reflexivity|].
    discriminate A.
Qed.

Lemma acceptable_iff (ty : string) (v : number) :
  acceptable ty v = true
  <-> exists q : Qc,
        v = Fin q /\ 0 <= q
        /\ (ty = "percent" /\ q <= QcZ 50 \/ ty = "dollar" /\ q <= QcZ 5000).
Proof.
  unfold acceptable. rewrite !andb_true_iff, !negb_true_iff. split.
  - intros ((((Hty & Hfin) & Hneg) & Hpct) & Hdol).
    destruct v as [q | | |]; try discriminate Hfin.
    exists q. split; [reflexivity|]. split.
    + apply lt_fin_false in Hneg. exact Hneg.
    + apply orb_true_iff in Hty. destruct Hty as [Hty | Hty].
      * left. rewrite Hty in Hpct. cbn [andb] in Hpct.
        apply String.eqb_eq in Hty. split; [exact Hty|].
        apply lt_fin_false in Hpct. exact Hpct.
      * right. rewrite Hty in Hdol. cbn [andb] in Hdol.
        apply String.eqb_eq in Hty. split; [exact Hty|].
        apply lt_fin_false in Hdol. exact Hdol.
  - intros (q & -> & Hq & H).
    assert (Hneg : JS.lt (Fin q) zero = false) by (apply lt_fin_false, Hq).
    destruct H as [[-> Hcap] | [-> Hcap]].
    + assert (G : JS.gt (Fin q) (ofZ 50) = false)
        by (apply lt_fin_false, Hcap).
      rewrite G. repeat split; assumption.
    + assert (G : JS.gt (Fin q) (ofZ 5000) = false)
        by (apply lt_fin_false, Hcap).
      rewrite G. repeat split; assumption.
Qed.

(** X1.  A request is answered 200 exactly when its type is the string
    "percent" or "dollar" and the number of its value is finite, at least 0
    and at most 50 for a percent, 5000 for a dollar amount; every other
    request is answered 400. *)
Theorem post_accepted_iff (body : Body) (st : ContributionState) :
  let answer := status (fst (post_contribution StringToNumber body st)) in
  (answer = 200%Z
   <-> exists (ty : string) (q : Qc),
         req_contributionType body = VStr ty
         /\ Number StringToNumber (req_contributionValue body) = Fin q
         /\ 0 <= q
         /\ (ty = "percent" /\ q <= QcZ 50
             \/ ty = "dollar" /\ q <= QcZ 5000))
  /\ (answer = 200%Z \/ answer = 400%Z).
Proof.
  cbv zeta.
  destruct (post_cases body st) as [(ty & Hty & Hok & ->) | (Hno & e & ->)];
    cbn [fst status].
  - split; [|left; reflexivity]. split; [intros _|reflexivity].
    apply acceptable_iff in Hok. destruct Hok as (q & Hv & Hq & Hcap).
    exists ty, q. repeat split; assumption.
  - split; [|right; reflexivity]. split; [discriminate|].
    intros (ty & q & Hty & Hv & Hq & Hcap). exfalso.
    specialize (Hno ty Hty).
    assert (Hyes : acceptable ty
                     (Number StringToNumber (req_contributionValue body))
                   = true).
    { apply acceptable_iff. exists q. repeat split; assumption. }
    congruence.
Qed.

Lemma update_snapshot_get
    (get : ContributionState -> number) (field : value)
    (valid : number -> bool)
    (set : number -> ContributionState -> ContributionState)
    (st : ContributionState) :
  (forall n st, get (set n st) = n) ->
  get (update_snapshot StringToNumber field valid set st)
  = applied StringToNumber field valid (get st).
Proof.
  intro Hget. unfold update_snapshot, applied.
  destruct (is_undefined field); [reflexivity|].
  destruct (valid (Number StringToNumber field)); [apply Hget|reflexivity].
Qed.

Lemma applied_twice (field : value) (valid : number -> bool) (old : number) :
  applied StringToNumber field valid (applied StringToNumber field valid old)
  = applied StringToNumber field valid old.
Proof.
  unfold applied. destruct (is_undefined field); [reflexivity|].
  destruct (valid (Number StringToNumber field)); reflexivity.
Qed.

Lemma stored_fields (body : Body) (ty : string) (st : ContributionState) :
  let st' := stored StringToNumber body ty st in
  userId st' = userId st
  /\ contributionType st' = ty
  /\ contributionValue st'
     = Number StringToNumber (req_contributionValue body)
  /\ age st' = applied StringToNumber (req_age body) valid_age (age st)
  /\ salary st'
     = applied StringToNumber (req_salary body) valid_salary (salary st)
  /\ ytdContribution st'
     = applied StringToNumber (req_ytdContribution body)
         valid_ytdContribution (ytdContribution st)
  /\ currentBalance st'
     = applied StringToNumber (req_currentBalance body)
         valid_currentBalance (currentBalance st)
  /\ payPeriodsPerYear st'
     = applied StringToNumber (req_payPeriodsPerYear body)
         valid_payPeriodsPerYear (payPeriodsPerYear st).
Proof.
  cbv zeta. unfold stored. repeat split.
  - do 5 (rewrite update_snapshot_frame by reflexivity). reflexivity.
  - do 5 (rewrite update_snapshot_frame by reflexivity). reflexivity.
  - do 5 (rewrite update_snapshot_frame by reflexivity). reflexivity.
  - do 4 (rewrite update_snapshot_frame by reflexivity).
    rewrite update_snapshot_get by reflexivity. reflexivity.
  - do 3 (rewrite update_snapshot_frame by reflexivity).
    rewrite update_snapshot_get by reflexivity.
    rewrite update_snapshot_frame by reflexivity. reflexivity.
  - do 2 (rewrite update_snapshot_frame by reflexivity).
    rewrite update_snapshot_get by reflexivity.
    do 2 (rewrite update_snapshot_frame by reflexivity). reflexivity.
  - rewrite update_snapshot_frame by reflexivity.
    rewrite update_snapshot_get by reflexivity.
    do 3 (rewrite update_snapshot_frame by reflexivity). reflexivity.
  - rewrite update_snapshot_get by reflexivity.
    do 4 (rewrite update_snapshot_frame by reflexivity). reflexivity.
Qed.

Lemma state_ext (a b : ContributionState) :
  userId a = userId b -> age a = age b -> salary a = salary b ->
  payPeriodsPerYear a = payPeriodsPerYear b ->
  ytdContribution a = ytdContribution b ->
  contributionType a = contributionType b ->
  contributionValue a = contributionValue b ->
  currentBalance a = currentBalance b ->
  a = b.
Proof.
  destruct a, b. fields. intros. subst. reflexivity.
Qed.

(** X2.  An accepted request stores the type and the number of the value it
    sent and answers with the new store; the GET that follows returns that
    selection.  No request changes [userId]. *)
Theorem post_stores_selection
    (body : Body) (ty : string) (st : ContributionState) :
  status (fst (post_contribution StringToNumber body st)) = 200%Z ->
  req_contributionType body = VStr ty ->
  let st' := snd (post_contribution StringToNumber body st) in
  fst (post_contribution StringToNumber body st) = Saved st'
  /\ contributionType st' = ty
  /\ contributionValue st'
     = Number StringToNumber (req_contributionValue body)
  /\ userId st' = userId st
  /\ res_contributionType (get_contribution st') = ty
  /\ res_contributionValue (get_contribution st')
     = Number StringToNumber (req_contributionValue body).
Proof.
  intros Hok Hty. cbv zeta.
  destruct (post_cases body st) as [(ty' & Hty' & _ & E) | (_ & e & E)];
    rewrite E in *; cbn [fst snd status] in *; [|discriminate Hok].
  assert (ty' = ty) by congruence. subst ty'.
  destruct (stored_fields body ty st) as (Hu & Ht & Hv & _).
  cbn [get_contribution res_contributionType res_contributionValue].
  repeat split; assumption.
Qed.

(** X3.  After an accepted request each snapshot field of the store depends
    on the field of that name only: it is the number sent when the key is
    sent and the number is valid, and the stored number otherwise. *)
Theorem post_applies_snapshot (body : Body) (st : ContributionState) :
  status (fst (post_contribution StringToNumber body st)) = 200%Z ->
  let st' := snd (post_contribution StringToNumber body st) in
  age st' = applied StringToNumber (req_age body) valid_age (age st)
  /\ salary st'
     = applied StringToNumber (req_salary body) valid_salary (salary st)
  /\ ytdContribution st'
     = applied StringToNumber (req_ytdContribution body)
         valid_ytdContribution (ytdContribution st)
  /\ currentBalance st'
     = applied StringToNumber (req_currentBalance body)
         valid_currentBalance (currentBalance st)
  /\ payPeriodsPerYear st'
     = applied StringToNumber (req_payPeriodsPerYear body)
         valid_payPeriodsPerYear (payPeriodsPerYear st).
Proof.
  intros Hok. cbv zeta.
  destruct (post_cases body st) as [(ty & _ & _ & E) | (_ & e & E)];
    rewrite E in *; cbn [fst snd status] in *; [|discriminate Hok].
  destruct (stored_fields body ty st) as (_ & _ & _ & H). exact H.
Qed.

(** X4.  Sending a request a second time changes nothing: the store after
    the two is the store after the first, and the answer is the same. *)
Theorem post_idempotent (body : Body) (st : ContributionState) :
  let once := post_contribution StringToNumber body st in
  post_contribution StringToNumber body (snd once) = once.
Proof.
  cbv zeta.
  destruct (post_cases body st) as [(ty & Hty & Hok & E) | (Hno & e & E)].
  - rewrite E. cbn [snd].
    destruct (post_cases body (stored StringToNumber body ty st))
      as [(ty' & Hty' & _ & E') | (Hno & _)].
    + assert (ty' = ty) by congruence. subst ty'. rewrite E'.
      assert (F : stored StringToNumber body ty
                    (stored StringToNumber body ty st)
                  = stored StringToNumber body ty st).
      { destruct (stored_fields body ty (stored StringToNumber body ty st))
          as (H1 & H2 & H3 & H4 & H5 & H6 & H7 & H8).
        destruct (stored_fields body ty st)
          as (G1 & G2 & G3 & G4 & G5 & G6 & G7 & G8).
        apply state_ext.
        - exact H1.
        - rewrite H4, G4. apply applied_twice.
        - rewrite H5, G5. apply applied_twice.
        - rewrite H8, G8. apply applied_twice.
        - rewrite H6, G6. apply applied_twice.
        - congruence.
        - congruence.
        - rewrite H7, G7. apply applied_twice. }
      rewrite F. reflexivity.
    + specialize (Hno ty Hty). congruence.
  - rewrite E. cbn [snd]. exact E.
Qed.
End RequestFacts.

(** ** The store over sequences of requests *)

Section RunFacts.
Import JS Backend Server.
Local Open Scope Qc_scope.
Variable StringToNumber : string -> number.

Lemma post_well_formed (body : Body) (st : ContributionState) :
  well_formed st = true ->
  well_formed (snd (post_contribution StringToNumber body st)) = true.
Proof.
  intro Hwf.
  destruct (post_cases StringToNumber body st)
    as [(ty & _ & Hok & ->) | (_ & e & ->)]; cbn [snd]; [|exact Hwf].
  unfold acceptable in Hok. rewrite !andb_true_iff, !negb_true_iff in Hok.
  destruct Hok as ((((A1 & A2) & A3) & A4) & A5).
  unfold stored. repeat apply update_snapshot_preserves.
  - exact well_formed_set_payPeriodsPerYear.
  - exact well_formed_set_currentBalance.
  - exact well_formed_set_ytdContribution.
  - exact well_formed_set_salary.
  - exact well_formed_set_age.
  - apply well_formed_set_selection; assumption.
Qed.



(** What [well_formed] says, on rationals. *)
Lemma well_formed_numbers (st : ContributionState) :
  well_formed st = true ->
  exists v s pp : Qc,
    contributionValue st = Fin v /\ salary st = Fin s
    /\ payPeriodsPerYear st = Fin pp
    /\ 0 <= v /\ 0 <= s /\ 0 < pp
    /\ (contributionType st = "percent" \/ contributionType st = "dollar")
    /\ (contributionType st = "percent" -> v <= QcZ 50).
Proof.
  unfold well_formed. rewrite !andb_true_iff.
  intros ((((((((((((((((Hty & Hvf) & Hv0) & Hpct) & _) & Hsf) & Hs0) & _)
                     & _) & _) & _) & _) & _) & _) & Hpf) & Hp0) & _).
  destruct (contributionValue st) as [v | | |]; try discriminate Hvf.
  destruct (salary st) as [s | | |]; try discriminate Hsf.
  destruct (payPeriodsPerYear st) as [pp | | |]; try discriminate Hpf.
  exists v, s, pp. repeat split.
  - apply le_fin in Hv0. exact Hv0.
  - apply le_fin in Hs0. exact Hs0.
  - apply lt_fin in Hp0. exact Hp0.
  - apply orb_true_iff in Hty.
    destruct Hty as [H | H]; apply String.eqb_eq in H; [left | right];
      exact H.
  - intro H. rewrite H in Hpct. cbn in Hpct.
    apply le_fin in Hpct. exact Hpct.
Qed.


End RunFacts.

(** ** More on the derived values of the page *)

Section DerivedFacts.
Import JS Frontend.
Local Open Scope Qc_scope.
Variable StringToNumber : string -> number.





End DerivedFacts.

(** ** The projections of a render *)

Section RenderFacts.
Import JS Frontend App.
Local Open Scope Qc_scope.
Variable StringToNumber : string -> number.
Variable Math_pow : number -> number -> number.

(** X8.  The note on a high savings rate and the note on a low one are
    never shown together, whatever the live percent is; the test on the
    first in the render of the second never decides. *)
Theorem savings_notes_exclusive (s : State) :
  showHighSavingsWarning StringToNumber s
  && showLowSavingsNote StringToNumber s = false.
Proof.
  unfold showHighSavingsWarning, showLowSavingsNote.
  destruct (live_percent StringToNumber s) as [q | | |]; try reflexivity.
  unfold gt, ofZ.
  destruct (JS.lt (Fin (QcZ 20)) (Fin q)) eqn:Hhigh; [|reflexivity].
  destruct (JS.lt (Fin q) (Fin (QcZ 5))) eqn:Hlow;
    [|now rewrite andb_false_r].
  apply lt_fin in Hhigh. apply lt_fin in Hlow.
  exfalso. assert (H : QcZ 20 < QcZ 5) by (eapply Qclt_trans; eassumption).
  discriminate H.
Qed.

(** X9.  With the assumptions loaded, an age, a balance, a salary at least
    0 and an annual return at least 0, the extra savings shown for one more
    percent are not below 0, as long as they are not [NaN], before the
    retirement age and from it on.  [Math.pow(1 + r, years)] is at least 1
    when [years <= 0] is false. *)
Theorem liveDelta_not_negative
    (s : State) (a : Assumptions) (ag cb sal d : number) :
  assumptions s = Some a ->
  age s = Some ag ->
  currentBalance s = Some cb ->
  salary s = Some sal ->
  JS.le zero sal = true ->
  JS.le zero (annualReturn a) = true ->
  (JS.le (sub (retirementAge a) ag) zero = false ->
   JS.le one (Math_pow (add one (annualReturn a)) (sub (retirementAge a) ag))
   = true) ->
  liveDelta StringToNumber Math_pow s = Some d ->
  notNaN d = true ->
  JS.le zero d = true.
Proof.
  intros Ha Hag Hcb Hsal Hs Hr Hz.
  unfold liveDelta, liveProjectionPlusOne, liveProjection.
  rewrite Ha, Hag, Hcb, Hsal.
  destruct (computeProjection Math_pow (Some ag) (Some (retirementAge a))
              (annualReturn a) (Some cb) (Some sal)
              (add (live_percent StringToNumber s) one))
    as [y|] eqn:Ey; [|discriminate].
  destruct (computeProjection Math_pow (Some ag) (Some (retirementAge a))
              (annualReturn a) (Some cb) (Some sal)
              (live_percent StringToNumber s))
    as [x|] eqn:Ex; [|discriminate].
  intros [= <-] N. destruct (notNaN_sub _ _ N) as [Ny Nx].
  apply sub_nonneg; [|exact N].
  apply (projection_le Math_pow ag (retirementAge a) (annualReturn a) cb sal
           (live_percent StringToNumber s)
           (add (live_percent StringToNumber s) one) x y);
    try assumption.
  apply add_nonneg_r; [reflexivity|].
  exact (projection_percent_notNaN Math_pow _ _ _ _ _ _ _ Ey Ny).
Qed.

(** X10.  With all inputs present and a balance, a salary, a percent and an
    annual return that are at least 0, the projection is not below the
    current balance, as long as it is not [NaN], before the retirement age
    and from it on.  [Math.pow(1 + r, years)] is at least 1 when
    [years <= 0] is false. *)
Theorem projection_at_least_balance
    (age retirementAge r currentBalance salary p : number) :
  JS.le zero currentBalance = true -> JS.le zero salary = true ->
  JS.le zero p = true -> JS.le zero r = true ->
  (JS.le (sub retirementAge age) zero = false ->
   JS.le one (Math_pow (add one r) (sub retirementAge age)) = true) ->
  exists x : number,
    computeProjection Math_pow (Some age) (Some retirementAge) r
      (Some currentBalance) (Some salary) p = Some x
    /\ (notNaN x = true -> JS.le currentBalance x = true).
Proof.
  intros Hcb Hs Hp Hr Hz.
  assert (Hx : exists x,
             computeProjection Math_pow (Some age) (Some retirementAge) r
               (Some currentBalance) (Some salary) p = Some x).
  { unfold computeProjection.
    destruct (JS.le (sub retirementAge age) zero); eexists; reflexivity. }
  destruct Hx as (x & Hx). exists x. split; [exact Hx|]. intro N.
  exact (projection_ge_balance Math_pow age retirementAge r currentBalance
           salary p x Hcb Hs Hp Hr Hz Hx N).
Qed.
End RenderFacts.

(** ** The page against the backend *)

Section PageFacts.
Import JS Frontend App.
Local Open Scope Qc_scope.
Variable StringToNumber : string -> number.

Lemma bad_request_message
    (body : Backend.Body) (st st' : Backend.ContributionState) (e : string) :
  Backend.post_contribution StringToNumber body st = (Backend.BadRequest e, st')
  -> e <> "".
Proof.
  unfold Backend.post_contribution.
  destruct (negb (includes _ _)); [intros [= <- _]; discriminate|].
  destruct (negb (isFinite _) || JS.lt _ zero)%bool;
    [intros [= <- _]; discriminate|].
  destruct (is_string _ "percent" && _)%bool;
    [intros [= <- _]; discriminate|].
  destruct (is_string _ "dollar" && _)%bool;
    [intros [= <- _]; discriminate|].
  discriminate.
Qed.

Lemma or_string_nonempty (s d : string) : s <> "" -> or_string s d = s.
Proof.
  intro H. unfold or_string. destruct (String.eqb s "") eqn:E; [|reflexivity].
  apply String.eqb_eq in E. contradiction.
Qed.

Lemma strict_eq_same (x : number) : isFinite x = true -> strict_eq x x = true.
Proof.
  destruct x as [q | | |]; try discriminate. intros _.
  apply strict_eq_fin. reflexivity.
Qed.

Lemma toFixed2_finite (q : Qc) : isFinite (toFixed2 (Fin q)) = true.
Proof.
  unfold toFixed2. destruct (Qle_bool _ _); reflexivity.
Qed.

(** The same type and the same finite number, saved and typed: no change. *)
Lemma hasChanges_same (s : State) (v : Qc) :
  contributionType s = savedType s ->
  savedValue s = Some (Fin v) ->
  numeric StringToNumber s = Fin v ->
  hasChanges StringToNumber s = Some false.
Proof.
  intros Hty Hsaved Hnum. unfold hasChanges.
  rewrite Hty, String.eqb_refl, Hsaved, Hnum. cbn [negb].
  now rewrite (strict_eq_same _ (toFixed2_finite v)).
Qed.

(** The handler of GET on a well-formed store agrees with the page on the
    percent. *)
Lemma currentPercent_is_live (st : Backend.ContributionState) :
  Backend.well_formed st = true ->
  Backend.currentPercent st
  = livePercent (isPercent (Backend.contributionType st))
      (numericContribution StringToNumber
         (VNum (Backend.contributionValue st)))
      (Some (Backend.salary st)) (Some (Backend.payPeriodsPerYear st)).
Proof.
  intro Hwf.
  destruct (well_formed_numbers st Hwf)
    as (v & s & pp & Hv & Hs & Hpp & _ & Hs0 & Hpp0 & _ & _).
  unfold Backend.currentPercent, livePercent, isPercent.
  rewrite Hv, Hs, Hpp, numericContribution_fin.
  destruct (String.eqb (Backend.contributionType st) "percent");
    [reflexivity|].
  rewrite (proj2 (gt_zero_fin pp) Hpp0), (not_fin_pos pp Hpp0).
  rewrite andb_true_r, orb_false_r.
  destruct (Qcle_lt_or_eq _ _ Hs0) as [Hpos | <-].
  - rewrite (proj2 (gt_zero_fin s) Hpos), (not_fin_pos s Hpos). reflexivity.
  - reflexivity.
Qed.

Lemma well_formed_finite (st : Backend.ContributionState) :
  Backend.well_formed st = true ->
  isFinite (Backend.age st) = true
  /\ isFinite (Backend.salary st) = true
  /\ isFinite (Backend.payPeriodsPerYear st) = true
  /\ isFinite (Backend.ytdContribution st) = true
  /\ isFinite (Backend.currentBalance st) = true
  /\ isFinite (Backend.contributionValue st) = true.
Proof.
  unfold Backend.well_formed. rewrite !andb_true_iff. tauto.
Qed.

Lemma json_number_finite (n : number) :
  isFinite n = true -> json_number n = Some n.
Proof. unfold json_number. now intros ->. Qed.

(** X11.  Once the reply of GET on a well-formed store is loaded, the page
    holds the snapshot and the selection of the store, the saved percent it
    shows is the live percent it computes as the JSON carries it ([null]
    for an infinity), and it sees no change to save. *)
Theorem load_shows_store (st : Backend.ContributionState) (s : State) :
  Backend.well_formed st = true ->
  let s' := load st s in
  age s' = Some (Backend.age st)
  /\ salary s' = Some (Backend.salary st)
  /\ payPeriods s' = Some (Backend.payPeriodsPerYear st)
  /\ ytd s' = Some (Backend.ytdContribution st)
  /\ currentBalance s' = Some (Backend.currentBalance st)
  /\ contributionType s' = Backend.contributionType st
  /\ contributionValue s' = VNum (Backend.contributionValue st)
  /\ savedPercent s' = json_number (live_percent StringToNumber s')
  /\ hasChanges StringToNumber s' = Some false
  /\ loading s' = false /\ error s' = "".
Proof.
  intro Hwf. cbv zeta.
  destruct (well_formed_finite st Hwf) as (Ha & Hs & Hp & Hy & Hb & Hv).
  destruct (Backend.contributionValue st) as [v | | |] eqn:Ev;
    try discriminate Hv.
  assert (Hlive := currentPercent_is_live st Hwf).
  unfold load, backend_get, fetchData, parse_response,
    Backend.get_contribution.
  cbn [fst data_age data_salary data_payPeriodsPerYear data_ytdContribution
       data_currentBalance data_contributionType data_contributionValue
       data_currentPercent data_assumptions Backend.res_age
       Backend.res_salary Backend.res_payPeriodsPerYear
       Backend.res_ytdContribution Backend.res_currentBalance
       Backend.res_contributionType Backend.res_contributionValue
       Backend.res_currentPercent Backend.res_assumptions].
  rewrite Ev, (json_number_finite _ Ha), (json_number_finite _ Hs),
    (json_number_finite _ Hp), (json_number_finite _ Hy),
    (json_number_finite _ Hb).
  cbn [json_number isFinite value_of].
  repeat split.
  - unfold live_percent, numeric.
    cbn [contributionType contributionValue salary payPeriods savedPercent].
    rewrite Hlive, Ev. reflexivity.
  - apply hasChanges_same with (v := v); try reflexivity.
    unfold numeric. cbn [contributionValue].
    apply numericContribution_fin.
Qed.

Lemma save_sends (s : State) (st : Backend.ContributionState) :
  hasChanges StringToNumber s = Some true ->
  save StringToNumber s st
  = match Backend.post_contribution StringToNumber
            (save_body StringToNumber s) st with
    | (Backend.BadRequest e, st') =>
        (finish false (or_string (or_string e "Save failed")
                         "Failed to save.") "" s, st')
    | (Backend.Saved _, st') =>
        (refreshed (parse_response (Backend.get_contribution st')) s, st')
    end.
Proof.
  intro H. unfold save, save_over, handleSave. rewrite H.
  unfold net_post, net_get, backend_post, backend_get.
  destruct (Backend.post_contribution StringToNumber
              (save_body StringToNumber s) st) as [[e | st1] st'];
    reflexivity.
Qed.

Lemma save_body_selection (s : State) (v : Qc) :
  numeric StringToNumber s = Fin v ->
  Backend.req_contributionType (save_body StringToNumber s)
  = VStr (contributionType s)
  /\ Number StringToNumber
       (Backend.req_contributionValue (save_body StringToNumber s))
     = Fin v.
Proof.
  intro H. unfold save_body.
  cbn [Backend.req_contributionType Backend.req_contributionValue].
  rewrite H. split; reflexivity.
Qed.

(** X12.  A save of a changed selection that is within the limits, on a
    well-formed store over a network that delivers: the store takes the
    selection, the page shows it as saved with the percent of the store as
    the JSON carries it and the message of success, it sees no change to
    save any more, and a second save sends nothing. *)
Theorem save_round_trip
    (s : State) (st : Backend.ContributionState) (v : Qc) :
  hasChanges StringToNumber s = Some true ->
  numeric StringToNumber s = Fin v -> 0 <= v ->
  (contributionType s = "percent" /\ v <= QcZ 50
   \/ contributionType s = "dollar" /\ v <= QcZ 5000) ->
  Backend.well_formed st = true ->
  let s' := fst (save StringToNumber s st) in
  let st' := snd (save StringToNumber s st) in
  Backend.contributionType st' = contributionType s
  /\ Backend.contributionValue st' = Fin v
  /\ Backend.well_formed st' = true
  /\ savedType s' = contributionType s
  /\ savedValue s' = Some (Fin v)
  /\ savedPercent s' = json_number (Backend.currentPercent st')
  /\ contributionType s' = contributionType s
  /\ contributionValue s' = VNum (Fin v)
  /\ hasChanges StringToNumber s' = Some false
  /\ successMessage s' = "Your contribution rate has been saved."
  /\ error s' = "" /\ saving s' = false
  /\ save StringToNumber s' st'
     = (finish false "" "No changes to save." s', st').
Proof.
  intros Hch Hnum Hv Hcap Hwf. cbv zeta.
  destruct (save_body_selection s v Hnum) as (Bty & Bval).
  assert (Hok : Server.acceptable (contributionType s)
                  (Number StringToNumber
                     (Backend.req_contributionValue
                        (save_body StringToNumber s))) = true).
  { apply acceptable_iff. exists v. repeat split; assumption. }
  pose proof (post_well_formed StringToNumber
                (save_body StringToNumber s) st Hwf) as Hwf'.
  rewrite (save_sends s st Hch).
  destruct (post_cases StringToNumber (save_body StringToNumber s) st)
    as [(ty & Hty & _ & E) | (Hno & _)].
  2:{ specialize (Hno _ Bty). congruence. }
  assert (ty = contributionType s) by congruence. subst ty.
  rewrite E in Hwf' |- *. cbn [fst snd] in Hwf' |- *.
  set (st' := Server.stored StringToNumber (save_body StringToNumber s)
                (contributionType s) st) in *.
  destruct (stored_fields StringToNumber (save_body StringToNumber s)
              (contributionType s) st) as (_ & Ht & Hval & _).
  fold st' in Ht, Hval. rewrite Bval in Hval.
  assert (Hs' : hasChanges StringToNumber
                  (refreshed (parse_response (Backend.get_contribution st'))
                     s) = Some false).
  { apply hasChanges_same with (v := v).
    - reflexivity.
    - cbn. rewrite Hval. reflexivity.
    - unfold numeric. cbn. rewrite Hval. apply numericContribution_fin. }
  repeat split; try assumption;
    try (cbn; rewrite ?Hval; first [reflexivity | exact Ht]).
  unfold save, save_over, handleSave. rewrite Hs'. reflexivity.
Qed.
Lemma post_rejected_by
    (body : Backend.Body) (st : Backend.ContributionState)
    (ty : string) (v : Qc) (message : string) :
  Backend.req_contributionType body = VStr ty ->
  Number StringToNumber (Backend.req_contributionValue body) = Fin v ->
  ty = "percent" \/ ty = "dollar" ->
  (v < 0 /\ message = "Invalid contributionValue")
  \/ (ty = "percent" /\ 0 <= v /\ QcZ 50 < v
      /\ message = "Percent too high")
  \/ (ty = "dollar" /\ 0 <= v /\ QcZ 5000 < v
      /\ message = "Dollar amount too high") ->
  Backend.post_contribution StringToNumber body st
  = (Backend.BadRequest message, st).
Proof.
  intros Hty Hv Hknown Hbad. unfold Backend.post_contribution.
  rewrite Hty, Hv.
  assert (Hinc : includes ["percent"; "dollar"] (VStr ty) = true)
    by (destruct Hknown as [-> | ->]; reflexivity).
  rewrite Hinc. cbn [negb isFinite orb is_string]. unfold zero.
  destruct Hbad as [[Hneg ->] | [(-> & H0 & Hcap & ->) | (-> & H0 & Hcap & ->)]].
  - now rewrite (proj2 (lt_fin v 0) Hneg).
  - rewrite (proj2 (lt_fin_false v 0) H0).
    replace (String.eqb "percent" "percent") with true by reflexivity.
    unfold gt, ofZ. now rewrite (proj2 (lt_fin (QcZ 50) v) Hcap).
  - rewrite (proj2 (lt_fin_false v 0) H0).
    replace (String.eqb "dollar" "percent") with false by reflexivity.
    replace (String.eqb "dollar" "dollar") with true by reflexivity.
    unfold gt, ofZ. cbn [andb].
    now rewrite (proj2 (lt_fin (QcZ 5000) v) Hcap).
Qed.

(** X13.  A save of a changed selection whose number is below 0 or above
    the limit of its type is refused: the store keeps what it had, the page
    keeps its saved and its working selection and shows the message of the
    server ("Invalid contributionValue", "Percent too high" or "Dollar
    amount too high"). *)
Theorem save_refused
    (s : State) (st : Backend.ContributionState) (v : Qc)
    (message : string) :
  hasChanges StringToNumber s = Some true ->
  numeric StringToNumber s = Fin v ->
  contributionType s = "percent" \/ contributionType s = "dollar" ->
  (v < 0 /\ message = "Invalid contributionValue")
  \/ (contributionType s = "percent" /\ 0 <= v /\ QcZ 50 < v
      /\ message = "Percent too high")
  \/ (contributionType s = "dollar" /\ 0 <= v /\ QcZ 5000 < v
      /\ message = "Dollar amount too high") ->
  save StringToNumber s st = (finish false message "" s, st).
Proof.
  intros Hch Hnum Hknown Hbad.
  destruct (save_body_selection s v Hnum) as (Bty & Bval).
  rewrite (save_sends s st Hch).
  rewrite (post_rejected_by _ st _ v message Bty Bval Hknown Hbad).
  assert (Hne : message <> "").
  { destruct Hbad as [[_ ->] | [(_ & _ & _ & ->) | (_ & _ & _ & ->)]];
      discriminate. }
  now rewrite !(or_string_nonempty _ _ Hne).
Qed.

Lemma applied_null_keeps (valid : number -> bool) (old : number) :
  valid zero = false ->
  Server.applied StringToNumber (json_value None) valid old = old.
Proof.
  intro H. unfold Server.applied. cbn. now rewrite H.
Qed.

Lemma applied_null_zero (valid : number -> bool) (old : number) :
  valid zero = true ->
  Server.applied StringToNumber (json_value None) valid old = zero.
Proof.
  intro H. unfold Server.applied. cbn. now rewrite H.
Qed.

(** X14.  An accepted save from a page whose snapshot is not loaded sends
    [null] for it: the store then holds 0 for the salary, the contributions
    of the year and the balance, and keeps its age and its pay periods. *)
Theorem save_unloaded_snapshot
    (s : State) (st : Backend.ContributionState) (v : Qc) :
  hasChanges StringToNumber s = Some true ->
  numeric StringToNumber s = Fin v -> 0 <= v ->
  (contributionType s = "percent" /\ v <= QcZ 50
   \/ contributionType s = "dollar" /\ v <= QcZ 5000) ->
  let st' := snd (save StringToNumber s st) in
  (salary s = None -> Backend.salary st' = zero)
  /\ (ytd s = None -> Backend.ytdContribution st' = zero)
  /\ (currentBalance s = None -> Backend.currentBalance st' = zero)
  /\ (age s = None -> Backend.age st' = Backend.age st)
  /\ (payPeriods s = None
      -> Backend.payPeriodsPerYear st' = Backend.payPeriodsPerYear st).
Proof.
  intros Hch Hnum Hv Hcap. cbv zeta.
  destruct (save_body_selection s v Hnum) as (Bty & Bval).
  assert (Hok : Server.acceptable (contributionType s)
                  (Number StringToNumber
                     (Backend.req_contributionValue
                        (save_body StringToNumber s))) = true).
  { apply acceptable_iff. exists v. repeat split; assumption. }
  rewrite (save_sends s st Hch).
  destruct (post_cases StringToNumber (save_body StringToNumber s) st)
    as [(ty & _ & _ & E) | (Hno & _)].
  2:{ specialize (Hno _ Bty). congruence. }
  rewrite E. cbn [snd].
  destruct (stored_fields StringToNumber (save_body StringToNumber s) ty st)
    as (_ & _ & _ & Ha & Hs & Hy & Hb & Hp).
  repeat split; intro Hnull.
  - rewrite Hs. unfold save_body. cbn [Backend.req_salary].
    rewrite Hnull. now apply applied_null_zero.
  - rewrite Hy. unfold save_body. cbn [Backend.req_ytdContribution].
    rewrite Hnull. now apply applied_null_zero.
  - rewrite Hb. unfold save_body. cbn [Backend.req_currentBalance].
    rewrite Hnull. now apply applied_null_zero.
  - rewrite Ha. unfold save_body. cbn [Backend.req_age].
    rewrite Hnull. now apply applied_null_keeps.
  - rewrite Hp. unfold save_body. cbn [Backend.req_payPeriodsPerYear].
    rewrite Hnull. now apply applied_null_keeps.
Qed.

Lemma finish_settled
    (b : bool) (err success : string) (s : State)
    (st' : Backend.ContributionState) :
  (exists q : Qc, savedValue s = Some (Fin q)) ->
  Backend.well_formed st' = true ->
  settled (finish b err success s, st').
Proof.
  intros Hsaved Hwf. split; [exact Hwf | exact Hsaved].
Qed.

Lemma refreshed_settled (s : State) (st : Backend.ContributionState) :
  Backend.well_formed st = true ->
  settled (refreshed (parse_response (Backend.get_contribution st)) s, st).
Proof.
  intro Hwf. split; [exact Hwf|].
  destruct (well_formed_finite st Hwf) as (_ & _ & _ & _ & _ & Hv).
  destruct (Backend.contributionValue st) as [v | | |] eqn:Ev;
    try discriminate Hv.
  exists v. cbn. rewrite Ev. reflexivity.
Qed.

Lemma save_over_settled
    (net : Net) (s : State) (st : Backend.ContributionState) :
  settled (s, st) -> settled (save_over StringToNumber net s st).
Proof.
  intros Hc. pose proof Hc as [Hwf Hsaved]. cbn [fst snd] in Hwf, Hsaved.
  pose proof (post_well_formed StringToNumber
                (save_body StringToNumber s) st Hwf) as Hwf'.
  unfold save_over, handleSave.
  destruct (hasChanges StringToNumber s) as [[|]|]; [| |exact Hc].
  2:{ apply finish_settled; assumption. }
  unfold net_post, net_get, backend_post, backend_get.
  destruct (Backend.post_contribution StringToNumber
              (save_body StringToNumber s) st) as [[e | st1] st'];
    cbn [snd] in Hwf' |- *;
    destruct net; try (apply finish_settled; assumption);
    apply refreshed_settled; assumption.
Qed.

Lemma step_settled (e : Event) (c : State * Backend.ContributionState) :
  settled c -> settled (step StringToNumber e c).
Proof.
  destruct c as [s st]. intros Hc. pose proof Hc as [Hwf Hsaved].
  cbn [fst snd] in Hwf, Hsaved.
  destruct e; cbn [step]; try (split; [exact Hwf | exact Hsaved]).
  - unfold load, backend_get. cbn [fst fetchData].
    destruct (refreshed_settled s st Hwf) as [_ H]. split; [exact Hwf|].
    exact H.
  - apply save_over_settled. exact Hc.
Qed.

(** X15.  Whatever happens to the page (the data arrives or not, the user
    types in the inputs, chooses a type, resets, saves over a network that
    may lose either request or either reply), the store stays well formed
    and the page holds a finite saved value, so that the render never
    throws on [savedValue.toFixed]. *)
Theorem page_never_throws (events : list Event) :
  let c := steps StringToNumber events (initial, Backend.contributionState) in
  Backend.well_formed (snd c) = true
  /\ (exists q : Qc, savedValue (fst c) = Some (Fin q))
  /\ hasChanges StringToNumber (fst c) <> None.
Proof.
  cbv zeta.
  assert (H : forall c, settled c -> settled (steps StringToNumber events c)).
  { induction events as [|e rest IH]; intros c Hc; [exact Hc|].
    cbn [steps]. apply IH, step_settled, Hc. }
  assert (H0 : settled (initial, Backend.contributionState)).
  { split; [reflexivity|]. exists 0. reflexivity. }
  destruct (H _ H0) as [Hwf (q & Hq)].
  split; [exact Hwf|]. split; [exists q; exact Hq|].
  unfold hasChanges. rewrite Hq.
  destruct (negb (String.eqb _ _)); discriminate.
Qed.
End PageFacts.

(** ** The further theorems at concrete inputs *)

(** The dollar request on the initial store is accepted. *)
Lemma post_accepted_iff_witness :
  Backend.status
    (fst (Backend.post_contribution nan_strings Backend.dollar_request
            Backend.contributionState)) = 200%Z.
Proof.
  apply (proj1 (post_accepted_iff nan_strings Backend.dollar_request
                  Backend.contributionState)).
  exists "dollar", (QcZ 250).
  split; [reflexivity|]. split; [reflexivity|]. split; [qc_order|].
  right. split; [reflexivity | qc_order].
Defined.

Lemma post_stores_selection_witness :
  Backend.res_contributionType
    (Backend.get_contribution
       (snd (Backend.post_contribution nan_strings Backend.dollar_request
               Backend.contributionState))) = "dollar"
  /\ Backend.res_contributionValue
       (Backend.get_contribution
          (snd (Backend.post_contribution nan_strings Backend.dollar_request
                  Backend.contributionState))) = ofZ 250.
Proof.
  assert (Hok : Backend.status
                  (fst (Backend.post_contribution nan_strings
                          Backend.dollar_request Backend.contributionState))
                = 200%Z) by reflexivity.
  destruct (post_stores_selection nan_strings Backend.dollar_request "dollar"
              Backend.contributionState Hok eq_refl)
    as (_ & _ & _ & _ & Hty & Hval).
  split; [exact Hty | exact Hval].
Defined.

(** The age sent is stored; the text sent for the balance is not. *)
Lemma post_applies_snapshot_witness :
  Backend.age
    (snd (Backend.post_contribution nan_strings Backend.dollar_request
            Backend.contributionState)) = ofZ 31
  /\ Backend.currentBalance
       (snd (Backend.post_contribution nan_strings Backend.dollar_request
               Backend.contributionState)) = ofZ 15000.
Proof.
  assert (Hok : Backend.status
                  (fst (Backend.post_contribution nan_strings
                          Backend.dollar_request Backend.contributionState))
                = 200%Z) by reflexivity.
  destruct (post_applies_snapshot nan_strings Backend.dollar_request
              Backend.contributionState Hok) as (Hage & _ & _ & Hbal & _).
  split; [exact Hage | exact Hbal].
Defined.


(** The mock account, loaded: one more percent of 120000 over 35 years. *)
Lemma liveDelta_not_negative_witness :
  exists d : number,
    App.liveDelta nan_strings pow_int App.loaded = Some d
    /\ le zero d = true.
Proof.
  assert (Hd : exists d, App.liveDelta nan_strings pow_int App.loaded
                         = Some d /\ notNaN d = true).
  { eexists. split; [vm_compute; reflexivity|]. vm_compute. reflexivity. }
  destruct Hd as (d & Hd & Nd). exists d. split; [exact Hd|].
  apply (liveDelta_not_negative nan_strings pow_int App.loaded
           {| App.retirementAge := ofZ 65;
              App.annualReturn :=
                div (mul Backend.ANNUAL_RETURN (ofZ 100)) (ofZ 100) |}
           (ofZ 30) (ofZ 15000) (ofZ 120000) d).
  - reflexivity.
  - reflexivity.
  - reflexivity.
  - reflexivity.
  - reflexivity.
  - vm_compute. reflexivity.
  - intros _. vm_compute. reflexivity.
  - exact Hd.
  - exact Nd.
Defined.

Lemma projection_at_least_balance_witness :
  exists x : number,
    Frontend.computeProjection pow_int (Some (ofZ 30)) (Some (ofZ 65))
      (Fin (Q2Qc (5 # 100))) (Some (ofZ 15000)) (Some (ofZ 120000))
      (ofZ 10) = Some x
    /\ le (ofZ 15000) x = true.
Proof.
  destruct (projection_at_least_balance pow_int (ofZ 30) (ofZ 65)
              (Fin (Q2Qc (5 # 100))) (ofZ 15000) (ofZ 120000) (ofZ 10)
              eq_refl eq_refl eq_refl eq_refl (fun _ => eq_refl))
    as (x & Hx & H).
  exists x. split; [exact Hx|]. apply H.
  vm_compute in Hx. injection Hx as <-. vm_compute. reflexivity.
Defined.

Lemma load_shows_store_witness :
  App.hasChanges nan_strings App.loaded = Some false
  /\ App.savedPercent App.loaded
     = App.json_number (App.live_percent nan_strings App.loaded).
Proof.
  destruct (load_shows_store nan_strings Backend.contributionState
              App.initial eq_refl)
    as (_ & _ & _ & _ & _ & _ & _ & Hpct & Hch & _).
  split; [exact Hch | exact Hpct].
Defined.

(** 250 dollars chosen on the loaded page, and saved. *)
Lemma save_round_trip_witness :
  Backend.contributionValue (snd (App.save nan_strings App.dollar_250
                                    Backend.contributionState))
  = Fin (QcZ 250)
  /\ App.hasChanges nan_strings
       (fst (App.save nan_strings App.dollar_250 Backend.contributionState))
     = Some false.
Proof.
  assert (Hv : 0 <= QcZ 250) by qc_order.
  assert (Hcap : App.contributionType App.dollar_250 = "percent"
                 /\ QcZ 250 <= QcZ 50
                 \/ App.contributionType App.dollar_250 = "dollar"
                    /\ QcZ 250 <= QcZ 5000)
    by (right; split; [reflexivity | qc_order]).
  destruct (save_round_trip nan_strings App.dollar_250
              Backend.contributionState (QcZ 250) eq_refl eq_refl Hv Hcap
              eq_refl)
    as (_ & Hval & _ & _ & _ & _ & _ & _ & Hch & _).
  split; [exact Hval | exact Hch].
Defined.

(** 60 percent typed on the loaded page, and saved. *)
Lemma save_refused_witness :
  App.save nan_strings App.percent_60 Backend.contributionState
  = (App.finish false "Percent too high" "" App.percent_60,
     Backend.contributionState).
Proof.
  apply (save_refused nan_strings App.percent_60 Backend.contributionState
           (QcZ 60) "Percent too high").
  - vm_compute. reflexivity.
  - reflexivity.
  - left. reflexivity.
  - right. left. split; [reflexivity|].
    split; [qc_order|]. split; [qc_order | reflexivity].
Defined.

(** 12 percent saved from a page whose data never arrived. *)
Lemma save_unloaded_snapshot_witness :
  Backend.salary (snd (App.save nan_strings App.unloaded_12
                         Backend.contributionState)) = zero
  /\ Backend.age (snd (App.save nan_strings App.unloaded_12
                         Backend.contributionState)) = ofZ 30.
Proof.
  assert (Hv : 0 <= QcZ 12) by qc_order.
  assert (Hcap : App.contributionType App.unloaded_12 = "percent"
                 /\ QcZ 12 <= QcZ 50
                 \/ App.contributionType App.unloaded_12 = "dollar"
                    /\ QcZ 12 <= QcZ 5000)
    by (left; split; [reflexivity | qc_order]).
  assert (Hch : App.hasChanges nan_strings App.unloaded_12 = Some true)
    by (vm_compute; reflexivity).
  destruct (save_unloaded_snapshot nan_strings App.unloaded_12
              Backend.contributionState (QcZ 12) Hch eq_refl Hv Hcap)
    as (Hsal & _ & _ & Hage & _).
  split; [apply Hsal; reflexivity | apply Hage; reflexivity].
Defined.
